(** * server.py: the /predict request handler of the sound classifier

    A shallow embedding of [audio_alert-backend/server.py].  The external
    collaborators (Werkzeug's form parser, the ffmpeg subprocess, librosa
    together with the VGGish embedding model, and the Keras classifier) are
    black boxes: they appear as fields of an environment record and every
    theorem quantifies over them.  The handler itself, its helpers, the temp-file cleanup and
    the JSON bodies are translated statement by statement. *)

From Stdlib Require Import ZArith Ascii String DecimalString.
From stdpp Require Import gmap strings list fin_maps.

Local Open Scope string_scope.

(** ** Python values *)

(** Only subclasses of [Exception] occur; [FileNotFoundError],
    [PermissionError] and [IsADirectoryError] are subclasses of [OSError]. *)
Inductive exn_class :=
  | FileNotFoundError
  | PermissionError
  | IsADirectoryError
  | OSError
  | IndexError
  | KeyError
  | ValueError
  | TypeError
  | RuntimeError
  | HTTPException.

Record exn := Exn { exn_type : exn_class; exn_str : string }.

(** [isinstance(e, OSError)] *)
Definition is_OSError (e : exn) : bool :=
  match exn_type e with
  | FileNotFoundError | PermissionError | IsADirectoryError | OSError => true
  | _ => false
  end.

(** [isinstance(e, FileNotFoundError)] *)
Definition is_FileNotFoundError (e : exn) : bool :=
  match exn_type e with
  | FileNotFoundError => true
  | _ => false
  end.

(** [str(n)] for a Python int. *)
Definition str_int (n : Z) : string := NilZero.string_of_int (Z.to_int n).
Definition str_nat (n : nat) : string := str_int (Z.of_nat n).

(** The float values of numpy arrays and of the JSON bodies.  Nothing in the
    handler computes with them except [np.mean] and the comparisons of
    [np.argmax], so they are an interface. *)
Class Floats (F : Type) := {
  fzero : F;                    (* 0.0 *)
  fle : F -> F -> bool;         (* a <= b, false when either is NaN *)
  fisnan : F -> bool;           (* np.isnan *)
  fmean : list F -> F;          (* the mean of a non-empty column *)
}.

(** What [jsonify] serialises: the dict literals of the handler, their
    strings, floats, lists and the nested label -> probability dict. *)
#[local] Unset Elimination Schemes.
Inductive json (F : Type) :=
  | JString (s : string)
  | JNumber (x : F)
  | JArray (xs : list (json F))
  | JObject (kv : gmap string (json F)).
#[local] Set Elimination Schemes.
Arguments JString {F} s.
Arguments JNumber {F} x.
Arguments JArray {F} xs.
Arguments JObject {F} kv.

(** A numpy array: its shape tuple and its elements in row-major order. *)
Record ndarray (F : Type) := NdArray { shape : list nat; data : list F }.
Arguments NdArray {F} shape data.
Arguments shape {F} n.
Arguments data {F} n.

(** ** The world outside the process *)

(** What the handler does to the outside, in program order. *)
Inductive event :=
  | EvPrint (line : string)              (* print(...) *)
  | EvTraceback (e : exn)                (* traceback.print_exc() *)
  | EvSave (path : string)               (* audio_file.save(path) *)
  | EvRun (cmd : list string)            (* subprocess.run(cmd, ...) *)
  | EvLoad (path : string)               (* librosa.load(path, ...) *)
  | EvEmbed                              (* GLOBAL_VGGISH_MODEL(waveform) *)
  | EvPredict                            (* classifier_model.predict(features) *)
  | EvRemove (path : string).            (* os.remove(path) *)

(** The paths that exist on disk, and the trace of effects so far. *)
Record World := MkWorld { disk : gset string; trace : list event }.

(** [FileStorage.save] either stores the upload or raises, possibly after
    the destination file was already created. *)
Inductive save_result :=
  | Saved
  | SaveFailed (created : bool) (e : exn).

Record FileStorage := MkFileStorage { filename : string; on_save : save_result }.

Record CompletedProcess := MkCompleted { returncode : Z; stderr : string }.

(** [subprocess.run]: the call raises (the executable is missing, ...) or
    the process runs to its exit; either way it may have written files. *)
Record run_result := MkRun {
  run_outcome : exn + CompletedProcess;
  run_writes : list string;
}.

(** The ways [os.remove] fails; all are [OSError]s. *)
Inductive os_error := ENOENT | EACCES | EISDIR | EIO.

Definition exn_of_os_error (err : os_error) (path : string) : exn :=
  match err with
  | ENOENT => Exn FileNotFoundError ("[Errno 2] No such file or directory: '" ++ path ++ "'")
  | EACCES => Exn PermissionError ("[Errno 13] Permission denied: '" ++ path ++ "'")
  | EISDIR => Exn IsADirectoryError ("[Errno 21] Is a directory: '" ++ path ++ "'")
  | EIO => Exn OSError ("[Errno 5] Input/output error: '" ++ path ++ "'")
  end.

(** One request and everything the handler consults while serving it.
    [request_files] are the file parts of the multipart body as the client
    sent them; evaluating [request.files] parses the body on first use and
    raises [request_parse_error] when that fails (Werkzeug answers a form
    of too many parts or too many bytes with [RequestEntityTooLarge]). *)
Record Env (F : Type) := MkEnv {
  BASE_DIR : string;
  request_files : list (string * FileStorage);         (* the file parts sent *)
  request_parse_error : option exn;                    (* raised by request.files *)
  subprocess_run : list string -> run_result;
  librosa_load : string -> exn + list F;
  GLOBAL_VGGISH_MODEL : list F -> exn + ndarray F;
  classifier_model : ndarray F -> exn + list (list F);  (* .predict *)
  os_remove_error : string -> option os_error;
}.
Arguments BASE_DIR {F} e.
Arguments request_files {F} e.
Arguments request_parse_error {F} e.
Arguments subprocess_run {F} e cmd.
Arguments librosa_load {F} e path.
Arguments GLOBAL_VGGISH_MODEL {F} e waveform.
Arguments classifier_model {F} e features.
Arguments os_remove_error {F} e path.

(** ** State and exceptions *)

Inductive outcome (A : Type) :=
  | Ret (a : A)
  | Raise (e : exn).
Arguments Ret {A} a.
Arguments Raise {A} e.

(** A computation of a function whose local variables are [L]: it reads and
    changes the world and its own frame, and returns or raises. *)
Definition M (L A : Type) : Type := World * L -> outcome A * (World * L).

Section Monad.
Context {L : Type}.

Definition ret {A} (a : A) : M L A := fun s => (Ret a, s).

Definition raise {A} (e : exn) : M L A := fun s => (Raise e, s).

Definition bind {A B} (m : M L A) (k : A -> M L B) : M L B :=
  fun s => match m s with
           | (Ret a, s') => k a s'
           | (Raise e, s') => (Raise e, s')
           end.

(** [try: m  except Exception as e: h e] *)
Definition try_except {A} (m : M L A) (h : exn -> M L A) : M L A :=
  fun s => match m s with
           | (Ret a, s') => (Ret a, s')
           | (Raise e, s') => h e s'
           end.

(** [try: m  finally: c]; an exception of [c] replaces the result. *)
Definition try_finally {A} (m : M L A) (c : M L unit) : M L A :=
  fun s => match m s with
           | (r, s') => match c s' with
                        | (Ret _, s'') => (r, s'')
                        | (Raise e, s'') => (Raise e, s'')
                        end
           end.

(** Reading and assigning the local variables. *)
Definition get_locals : M L L := fun s => (Ret (snd s), s).
Definition set_locals (l : L) : M L unit := fun s => (Ret tt, (fst s, l)).
End Monad.

Notation "'let!' x ':=' m 'in' k" := (bind m (fun x => k))
  (at level 10, x name, m at level 100, k at level 200, only parsing).
Notation "'run!' m 'in' k" := (bind m (fun _ => k))
  (at level 10, m at level 100, k at level 200, only parsing).

(** ** Builtins and library calls *)

Section Builtins.
Context {F : Type} `{Floats F} {L : Type}.

(** Appending an event to the trace. *)
Definition emit (ev : event) (w : World) : World :=
  MkWorld (disk w) (trace w ++ [ev]).

(** [print(line)] *)
Definition print (line : string) : M L unit :=
  fun s => (Ret tt, (emit (EvPrint line) (fst s), snd s)).

(** [traceback.print_exc()] inside an [except] clause handling [e]. *)
Definition traceback_print_exc (e : exn) : M L unit :=
  fun s => (Ret tt, (emit (EvTraceback e) (fst s), snd s)).

(** Evaluating [request.files]: the parsed uploads, or the exception of
    the parser. *)
Definition request_dot_files (env : Env F) : M L (list (string * FileStorage)) :=
  match request_parse_error env with
  | Some e => raise e
  | None => ret (request_files env)
  end.

(** [key in files] *)
Definition files_contains (key : string) (files : list (string * FileStorage)) : bool :=
  bool_decide (key ∈ files.*1).

(** [files.get(key)]: the first upload under that name. *)
Fixpoint files_get (key : string) (files : list (string * FileStorage))
  : option FileStorage :=
  match files with
  | [] => None
  | (k, v) :: rest => if String.eqb k key then Some v else files_get key rest
  end.

(** [files[key]] *)
Definition files_getitem (key : string) (files : list (string * FileStorage))
  : M L FileStorage :=
  match files_get key files with
  | Some v => ret v
  | None => raise (Exn KeyError "400 Bad Request: The browser (or proxy) sent a request that this server could not understand.")
  end.

(** [file.save(dst)] *)
Definition FileStorage_save (file : FileStorage) (dst : string) : M L unit :=
  fun s =>
    let w := emit (EvSave dst) (fst s) in
    match on_save file with
    | Saved => (Ret tt, (MkWorld ({[dst]} ∪ disk w) (trace w), snd s))
    | SaveFailed created e =>
        (Raise e, (MkWorld (if created then {[dst]} ∪ disk w else disk w) (trace w), snd s))
    end.

(** [os.path.join(a, b)] on POSIX. *)
Fixpoint endswith_sep (a : string) : bool :=
  match a with
  | EmptyString => false
  | String c EmptyString => Ascii.eqb c "/"%char
  | String _ rest => endswith_sep rest
  end.

Definition os_path_join (a b : string) : string :=
  if String.prefix "/" b then b
  else if String.eqb a "" || endswith_sep a then a ++ b
  else a ++ "/" ++ b.

(** [os.path.exists(p)] *)
Definition os_path_exists (p : string) : M L bool :=
  fun s => (Ret (bool_decide (p ∈ disk (fst s))), s).

(** [os.remove(p)] *)
Definition os_remove (env : Env F) (p : string) : M L unit :=
  fun s =>
    let w := emit (EvRemove p) (fst s) in
    match os_remove_error env p with
    | Some err => (Raise (exn_of_os_error err p), (w, snd s))
    | None =>
        if bool_decide (p ∈ disk w)
        then (Ret tt, (MkWorld (disk w ∖ {[p]}) (trace w), snd s))
        else (Raise (exn_of_os_error ENOENT p), (w, snd s))
    end.

(** [subprocess.run(cmd, stdout=PIPE, stderr=PIPE, text=True)] *)
Definition subprocess_run_call (env : Env F) (cmd : list string) : M L CompletedProcess :=
  fun s =>
    let w := emit (EvRun cmd) (fst s) in
    let r := subprocess_run env cmd in
    let s' := (MkWorld (list_to_set (run_writes r) ∪ disk w) (trace w), snd s) in
    match run_outcome r with
    | inl e => (Raise e, s')
    | inr result => (Ret result, s')
    end.

(** A call of one of the black boxes, recorded in the trace. *)
Definition call {A} (ev : event) (r : exn + A) : M L A :=
  fun s =>
    let s' := (emit ev (fst s), snd s) in
    match r with
    | inl e => (Raise e, s')
    | inr a => (Ret a, s')
    end.

(** [t[i]] for a list or tuple. *)
Definition list_getitem {A} (what : string) (t : list A) (i : nat) : M L A :=
  match t !! i with
  | Some x => ret x
  | None => raise (Exn IndexError (what ++ " index out of range"))
  end.

(** [a[i]] along axis 0 of a numpy array with [n] entries there. *)
Definition np_getitem {A} (a : list A) (i : nat) : M L A :=
  match a !! i with
  | Some x => ret x
  | None => raise (Exn IndexError ("index " ++ str_nat i ++ " is out of bounds for axis 0 with size "
                                   ++ str_nat (length a)))
  end.

(** [repr] of a shape tuple. *)
Definition repr_shape (s : list nat) : string :=
  match s with
  | [] => "()"
  | [n] => "(" ++ str_nat n ++ ",)"
  | _ => "(" ++ String.concat ", " (map str_nat s) ++ ")"
  end.

(** [np.squeeze(a, axis=0)] *)
Definition np_squeeze0 (a : ndarray F) : M L (ndarray F) :=
  match shape a with
  | 1 :: rest => ret (NdArray rest (data a))
  | _ :: _ => raise (Exn ValueError "cannot select an axis to squeeze out which has size not equal to one")
  | [] => raise (Exn ValueError "axis 0 is out of bounds for array of dimension 0")
  end.

(** [a.shape[0]] *)
Definition shape0 (a : ndarray F) : M L nat :=
  list_getitem "tuple" (shape a) 0.

(** [np.mean(a, axis=0)]: entry [j] of the result is the mean over [t] of
    the entries [t * stride + j], where [stride] is the size of one frame. *)
Definition np_mean0 (a : ndarray F) : ndarray F :=
  let frames := hd 0 (shape a) in
  let rest := tail (shape a) in
  let stride := foldr Nat.mul 1 rest in
  NdArray rest
    (map (fun j => fmean (map (fun t => nth (t * stride + j) (data a) fzero) (seq 0 frames)))
         (seq 0 stride)).

(** [np.zeros((n,), dtype=np.float32)] *)
Definition np_zeros (n : nat) : ndarray F := NdArray [n] (replicate n fzero).

(** [np.expand_dims(a, axis=0)] *)
Definition np_expand_dims0 (a : ndarray F) : ndarray F :=
  NdArray (1 :: shape a) (data a).

(** The scan of [np.argmax]: [mp] is the best value so far, found at
    [max_ind]; a NaN wins and stops the scan. *)
Fixpoint argmax_scan (mp : F) (max_ind i : nat) (ip : list F) : nat :=
  match ip with
  | [] => max_ind
  | x :: rest =>
      if negb (fle x mp)
      then (if fisnan x then i else argmax_scan x i (S i) rest)
      else argmax_scan mp max_ind (S i) rest
  end.

(** The index [np.argmax] finds in a one-dimensional array, if any. *)
Definition argmax (a : list F) : option nat :=
  match a with
  | [] => None
  | x :: rest => Some (if fisnan x then 0 else argmax_scan x 0 1 rest)
  end.

(** [int(np.argmax(a))] *)
Definition np_argmax (a : list F) : M L nat :=
  match argmax a with
  | Some i => ret i
  | None => raise (Exn ValueError "attempt to get argmax of an empty sequence")
  end.
End Builtins.

(** ** Constants & configuration *)

Definition CLASS_NAMES : list string :=
  ["baby_cry"; "boiling_water"; "door_knock"; "cat_meow"; "background"; "dog_bark"].
Definition NUM_CLASSES : nat := length CLASS_NAMES.
Definition EMBEDDING_SIZE : nat := 128.
Definition SAMPLE_RATE : Z := 16000.

(** ** Helpers *)

Section Helpers.
Context {F : Type} `{Floats F} (env : Env F) {L : Type}.

(** The argument vector [cmd] of [convert_webm_to_wav]. *)
Definition ffmpeg_cmd (webm_path wav_path : string) (sr : Z) : list string :=
  ["ffmpeg"; "-y"; "-i"; webm_path; "-ac"; "1"; "-ar"; str_int sr; wav_path].

(** [convert_webm_to_wav(webm_path, wav_path, sr)] *)
Definition convert_webm_to_wav (webm_path wav_path : string) (sr : Z) : M L bool :=
  try_except
    (let cmd := ffmpeg_cmd webm_path wav_path sr in
     run! print ("[INFO] Running ffmpeg command: " ++ String.concat " " cmd) in
     let! result := subprocess_run_call env cmd in
     if negb (returncode result =? 0)%Z then
       run! print "[ERROR] ffmpeg failed:" in
       run! print (stderr result) in
       ret false
     else
       run! print ("[INFO] ffmpeg conversion successful: " ++ wav_path) in
       ret true)
    (fun e =>
       if is_FileNotFoundError e then
         run! print "[ERROR] ffmpeg not found. Make sure it is installed and in your PATH." in
         ret false
       else
         run! print ("[ERROR] Exception during ffmpeg conversion: " ++ exn_str e) in
         ret false).

(** [load_and_extract_feature(file_path)]; [None] is Python's [None]. *)
Definition load_and_extract_feature (file_path : string) : M L (option (ndarray F)) :=
  try_except
    (let! audio := call (EvLoad file_path) (librosa_load env file_path) in
     let audio := audio in         (* audio.astype(np.float32) *)
     let waveform := audio in      (* tf.convert_to_tensor(audio, ...) *)
     let! embeddings := call EvEmbed (GLOBAL_VGGISH_MODEL env waveform) in
     run! print ("[INFO] VGGish embeddings shape: " ++ repr_shape (shape embeddings)) in
     let! embeddings :=
       (if (length (shape embeddings) =? 3)%nat
        then np_squeeze0 embeddings
        else ret embeddings) in
     let! frames := shape0 embeddings in
     if (0 <? frames)%nat then
       let mean_embedding := np_mean0 embeddings in
       ret (Some mean_embedding)
     else
       run! print ("[WARN] No embeddings generated for " ++ file_path ++ ", using zeros.") in
       ret (Some (np_zeros EMBEDDING_SIZE)))
    (fun e =>
       run! print ("[ERROR] Error processing " ++ file_path ++ ": " ++ exn_str e) in
       ret None).
End Helpers.

(** ** Routes *)

(** What a view function returns: a body alone, or a body and a status. *)
Inductive view_rv (F : Type) :=
  | RvBody (body : json F)
  | RvTuple (body : json F) (status : nat).
Arguments RvBody {F} body.
Arguments RvTuple {F} body status.

Record Response (F : Type) := MkResponse { resp_body : json F; resp_status : nat }.
Arguments MkResponse {F} resp_body resp_status.
Arguments resp_body {F} r.
Arguments resp_status {F} r.

(** Flask's [make_response]: the status defaults to 200. *)
Definition make_response {F} (rv : view_rv F) : Response F :=
  match rv with
  | RvBody body => MkResponse body 200
  | RvTuple body status => MkResponse body status
  end.

(** [jsonify(d)] of a dict literal. *)
Definition jsonify {F} (d : list (string * json F)) : json F :=
  JObject (list_to_map (reverse d)).

(** The local variables of [predict_audio] that its [finally] block reads. *)
Record predict_locals := MkLocals {
  temp_webm_path : option string;
  temp_wav_path : option string;
}.

(** Truth value of a variable holding [None] or a string. *)
Definition truthy (p : option string) : bool :=
  match p with
  | None => false
  | Some s => negb (String.eqb s "")
  end.

Section Routes.
Context {F : Type} `{Floats F} (env : Env F).

(** [health()] *)
Definition health : view_rv F :=
  RvTuple (jsonify [("status", JString "ok")]) 200.

(** [{CLASS_NAMES[i]: float(probs[i]) for i in range(len(CLASS_NAMES))}],
    run over the indices [idxs] still to visit. *)
Fixpoint prob_dict_comprehension (probs : list F) (idxs : list nat) (acc : gmap string F)
  : M predict_locals (gmap string F) :=
  match idxs with
  | [] => ret acc
  | i :: rest =>
      let! key := list_getitem "list" CLASS_NAMES i in
      let! value := np_getitem probs i in
      prob_dict_comprehension probs rest (<[key := value]> acc)
  end.

(** The classification steps of the [try] block, from [np.expand_dims]
    to the final [return], once [features] is known not to be [None]. *)
Definition predict_audio_classify (features : ndarray F) : M predict_locals (view_rv F) :=
  let features := np_expand_dims0 features in
  let! predictions := call EvPredict (classifier_model env features) in
  let! probs := np_getitem predictions 0 in
  let! predicted_class_index := np_argmax probs in
  let! predicted_class_name := list_getitem "list" CLASS_NAMES predicted_class_index in
  let! prob_dict :=
    prob_dict_comprehension probs (seq 0 (length CLASS_NAMES)) ∅ in
  ret (RvBody (jsonify [
         ("predicted_class", JString predicted_class_name);
         ("probabilities", JArray (JNumber <$> probs));
         ("probabilities_dict", JObject (JNumber <$> prob_dict))])).

(** The [try] block of [predict_audio].  [request.files] is evaluated at
    both of its uses; Werkzeug keeps the parsed form, so the second
    evaluation gives what the first gave. *)
Definition predict_audio_try : M predict_locals (view_rv F) :=
  let! files := request_dot_files env in
  if negb (files_contains "audio_file" files) then
    ret (RvTuple (jsonify [("error", JString "No audio_file part in the request")]) 400)
  else
    let! files := request_dot_files env in
    let! audio_file := files_getitem "audio_file" files in
    if String.eqb (filename audio_file) "" then
      ret (RvTuple (jsonify [("error", JString "No selected file")]) 400)
    else
      let webm := os_path_join (BASE_DIR env) "temp_audio.webm" in
      let! l := get_locals in
      run! set_locals (MkLocals (Some webm) (temp_wav_path l)) in
      let wav := os_path_join (BASE_DIR env) "temp_audio.wav" in
      let! l := get_locals in
      run! set_locals (MkLocals (temp_webm_path l) (Some wav)) in
      run! FileStorage_save audio_file webm in
      run! print ("[INFO] Saved uploaded file to " ++ webm) in
      let! ok := convert_webm_to_wav env webm wav SAMPLE_RATE in
      if negb ok then
        ret (RvTuple (jsonify [("error",
               JString ("Failed to convert audio with ffmpeg. "
                        ++ "Ensure ffmpeg is installed and accessible from PATH."))]) 500)
      else
        let! features := load_and_extract_feature env wav in
        match features with
        | None =>
            ret (RvTuple (jsonify [("error",
                   JString "Feature extraction failed even after ffmpeg conversion.")]) 500)
        | Some features => predict_audio_classify features
        end.

(** The body of the [for p in (temp_webm_path, temp_wav_path)] loop. *)
Definition cleanup_one (p : option string) : M predict_locals unit :=
  match p with
  | Some path =>
      if truthy p then
        let! there := os_path_exists path in
        if there then
          try_except (os_remove env path)
            (fun e => if is_OSError e then ret tt else raise e)
        else ret tt
      else ret tt
  | None => ret tt
  end.

(** The [finally] block. *)
Definition predict_audio_finally : M predict_locals unit :=
  let! l := get_locals in
  run! cleanup_one (temp_webm_path l) in
  cleanup_one (temp_wav_path l).

(** The [except Exception as e] clause. *)
Definition predict_audio_except (e : exn) : M predict_locals (view_rv F) :=
  run! traceback_print_exc e in
  ret (RvTuple (jsonify [("error", JString "Internal server error");
                         ("details", JString (exn_str e))]) 500).

(** [predict_audio()] *)
Definition predict_audio : M predict_locals (view_rv F) :=
  try_finally
    (try_except predict_audio_try predict_audio_except)
    predict_audio_finally.

(** One POST /predict request served in world [w]: the locals start as
    [None], and Flask turns the view's return value into the response. *)
Definition serve_predict (w : World) : outcome (Response F) * World :=
  match predict_audio (w, MkLocals None None) with
  | (Ret rv, (w', _)) => (Ret (make_response rv), w')
  | (Raise e, (w', _)) => (Raise e, w')
  end.
End Routes.

(** ** The vocabulary of the properties *)

Section Vocabulary.
Context {F : Type} `{Floats F} (env : Env F).

(** The two fixed temp paths of a request. *)
Definition webm_path : string := os_path_join (BASE_DIR env) "temp_audio.webm".
Definition wav_path : string := os_path_join (BASE_DIR env) "temp_audio.wav".

(** The form parses and carries the field [audio_file] with a non-empty
    filename, so the handler goes on to save the upload. *)
Definition accepted_upload (f : FileStorage) : Prop :=
  request_parse_error env = None
  ∧ files_get "audio_file" (request_files env) = Some f ∧ filename f ≠ "".

(** The transcoder invocation of this request and how it ends. *)
Definition transcoder_cmd : list string := ffmpeg_cmd webm_path wav_path SAMPLE_RATE.

Definition exited_zero (o : exn + CompletedProcess) : bool :=
  match o with
  | inr result => (returncode result =? 0)%Z
  | inl _ => false
  end.

(** The upload is saved and the transcoder exits with code zero, so the
    handler goes on to extract features. *)
Definition reaches_extraction : Prop :=
  ∃ f, accepted_upload f ∧ on_save f = Saved
       ∧ exited_zero (run_outcome (subprocess_run env transcoder_cmd)) = true.

(** Loading the file or running the embedding model raises. *)
Definition load_or_inference_raises (path : string) : Prop :=
  (∃ e, librosa_load env path = inl e)
  ∨ (∃ audio e, librosa_load env path = inr audio ∧ GLOBAL_VGGISH_MODEL env audio = inl e).

(** The model output is one that the shape handling after inference
    rejects: three-dimensional with a leading dimension other than one
    ([np.squeeze] raises), or zero-dimensional ([shape[0]] raises). *)
Definition unpoolable (emb : ndarray F) : bool :=
  match shape emb with
  | [] => true
  | [b; _; _] => negb (b =? 1)%nat
  | _ => false
  end.

(** Some statement of the [try] block of the extractor raises. *)
Definition extraction_raises (path : string) : Prop :=
  load_or_inference_raises path
  ∨ (∃ audio emb, librosa_load env path = inr audio
                  ∧ GLOBAL_VGGISH_MODEL env audio = inr emb ∧ unpoolable emb = true).

(** What the extractor returns, read off the two black boxes: [None] when
    a statement of its [try] block raises, else the pooled vector. *)
Definition pooled (path : string) : option (ndarray F) :=
  match librosa_load env path with
  | inl _ => None
  | inr audio =>
      match GLOBAL_VGGISH_MODEL env audio with
      | inl _ => None
      | inr emb =>
          if unpoolable emb then None
          else
            let emb' := if (length (shape emb) =? 3)%nat
                        then NdArray (tail (shape emb)) (data emb) else emb in
            if (0 <? hd 0 (shape emb'))%nat then Some (np_mean0 emb')
            else Some (np_zeros EMBEDDING_SIZE)
      end
  end.

(** The model output has no time frames, in either layout the extractor
    expects: [(T, d)], or [(1, T, d)] with an extra batch dimension. *)
Definition zero_frames (emb : ndarray F) : bool :=
  match shape emb with
  | [0; _] => true
  | [1; 0; _] => true
  | _ => false
  end.

(** The model output has one of the two layouts the extractor expects:
    [(T, d)], or [(1, T, d)] with an extra batch dimension.  These are the
    outputs the embedding model gives for the one-dimensional waveform the
    extractor passes to it. *)
Definition expected_layout (emb : ndarray F) : bool :=
  match shape emb with
  | [_; _] => true
  | [1; _; _] => true
  | _ => false
  end.

(** The label -> probability dict of a row with an entry for each label. *)
Definition label_probs (probs : list F) : gmap string F :=
  foldl (fun acc kv => <[kv.1 := kv.2]> acc) ∅ (zip CLASS_NAMES probs).

(** The body of a successful response. *)
Definition prediction_body (name : string) (probs : list F) : json F :=
  jsonify [("predicted_class", JString name);
           ("probabilities", JArray (JNumber <$> probs));
           ("probabilities_dict", JObject (JNumber <$> label_probs probs))].

(** The body of an error response with a single [error] key. *)
Definition error_body (msg : string) : json F := jsonify [("error", JString msg)].

(** The body of the generic [except] clause. *)
Definition internal_error_body (details : string) : json F :=
  jsonify [("error", JString "Internal server error"); ("details", JString details)].

(** A classifier output the classification steps cannot label: the call
    raises, the batch is empty, the row is shorter than the label set, or
    its argmax lies outside the label set. *)
Definition unlabelable (o : exn + list (list F)) : Prop :=
  match o with
  | inl _ => True
  | inr [] => True
  | inr (probs :: _) =>
      (length probs < NUM_CLASSES)%nat
      ∨ ∃ i, argmax probs = Some i ∧ (NUM_CLASSES ≤ i)%nat
  end.

(** The [probabilities] list of a response body. *)
Definition probabilities_of (body : json F) : option (list (json F)) :=
  match body with
  | JObject m =>
      match m !! "probabilities" with
      | Some (JArray xs) => Some xs
      | _ => None
      end
  | _ => None
  end.

(** Neither temp file exists in world [w]. *)
Definition temp_files_gone (w : World) : Prop :=
  (webm_path ∉ disk w) ∧ (wav_path ∉ disk w).

(** The computation [m] returns [a], whatever the state it starts in. *)
Definition returns {L A} (m : M L A) (a : A) : Prop := ∀ s, (m s).1 = Ret a.

(** What the view returns once the upload [f] was accepted: the value
    [rv] of the guarded [try] block, by the stage that decides it. *)
Definition after_upload (f : FileStorage) (rv : view_rv F) : Prop :=
  match on_save f with
  | SaveFailed _ e => rv = RvTuple (internal_error_body (exn_str e)) 500
  | Saved =>
      if exited_zero (run_outcome (subprocess_run env transcoder_cmd)) then
        match pooled wav_path with
        | None =>
            rv = RvTuple (error_body "Feature extraction failed even after ffmpeg conversion.") 500
        | Some features =>
            let o := classifier_model env (np_expand_dims0 features) in
            (∃ e, unlabelable o ∧ rv = RvTuple (internal_error_body (exn_str e)) 500)
            ∨ (∃ probs rows i name,
                  o = inr (probs :: rows) ∧ (NUM_CLASSES ≤ length probs)%nat
                  ∧ argmax probs = Some i ∧ CLASS_NAMES !! i = Some name
                  ∧ rv = RvBody (prediction_body name probs))
        end
      else
        rv = RvTuple (error_body ("Failed to convert audio with ffmpeg. "
                        ++ "Ensure ffmpeg is installed and accessible from PATH.")) 500
  end.
End Vocabulary.

(** ** A concrete float model for the examples *)

(** Rationals with one extra value for NaN ([None]). *)
Module Sample.
Import QArith.

Definition num := option Q.

Definition num_le (a b : num) : bool :=
  match a, b with
  | Some x, Some y => Qle_bool x y
  | _, _ => false
  end.

Definition num_isnan (a : num) : bool :=
  match a with
  | None => true
  | Some _ => false
  end.

Definition num_add (a b : num) : num :=
  match a, b with
  | Some x, Some y => Some (Qred (x + y))
  | _, _ => None
  end.

Definition num_mean (col : list num) : num :=
  match foldr num_add (Some 0%Q) col with
  | Some total => Some (Qred (total / inject_Z (Z.of_nat (length col))))
  | None => None
  end.

#[export] Instance num_floats : Floats num := {|
  fzero := Some 0%Q;
  fle := num_le;
  fisnan := num_isnan;
  fmean := num_mean;
|}.

(** A classifier artifact that answers every batch with the same row. *)
Definition constant_classifier (row : list num) (features : ndarray num)
  : exn + list (list num) := inr [row].

Definition upload (name : string) : FileStorage := MkFileStorage name Saved.

(** ffmpeg runs, writes its output file and exits with [code]. *)
Definition ffmpeg_exits (code : Z) (cmd : list string) : run_result :=
  MkRun (inr (MkCompleted code "")) (drop 8 cmd).

(** VGGish yields [frames] frames of 128 zeros. *)
Definition vggish_frames (frames : nat) (waveform : list num) : exn + ndarray num :=
  inr (NdArray [frames; 128%nat] (replicate (frames * 128) (Some 0%Q))).

(** A request served from /srv/app: the uploads [files], ffmpeg exiting
    with [code], the embedding model [vggish], a classifier answering
    [row], and [locked] paths that [os.remove] refuses to delete. *)
Definition sample_env (files : list (string * FileStorage)) (code : Z)
    (vggish : list num -> exn + ndarray num) (row : list num)
    (locked : list string) : Env num := {|
  BASE_DIR := "/srv/app";
  request_files := files;
  request_parse_error := None;
  subprocess_run := ffmpeg_exits code;
  librosa_load := fun _ => inr [];
  GLOBAL_VGGISH_MODEL := vggish;
  classifier_model := constant_classifier row;
  os_remove_error := fun path => if bool_decide (path ∈ locked) then Some EACCES else None;
|}.

Definition empty_world : World := MkWorld ∅ [].

Definition p (n d : Z) : num := Some (Qmake n (Z.to_pos d)).

Definition clip : list (string * FileStorage) := [("audio_file", upload "clip.webm")].

(** Rows of six, seven and three probabilities. *)
Definition six : list num := [p 1 10; p 1 10; p 1 10; p 1 10; p 1 10; p 5 10].
Definition seven : list num := [p 4 10; p 1 10; p 1 10; p 1 10; p 1 10; p 1 10; p 1 10].
Definition three : list num := [p 2 10; p 3 10; p 5 10].

Definition good_env : Env num := sample_env clip 0 (vggish_frames 1) six [].
Definition wide_env : Env num := sample_env clip 0 (vggish_frames 1) seven [].
Definition short_env : Env num := sample_env clip 0 (vggish_frames 1) three [].
Definition silent_env : Env num := sample_env clip 0 (vggish_frames 0) six [].
Definition failing_ffmpeg_env : Env num := sample_env clip 1 (vggish_frames 1) six [].
Definition no_field_env : Env num := sample_env [] 0 (vggish_frames 1) six [].
Definition locked_env : Env num :=
  sample_env clip 0 (vggish_frames 1) six ["/srv/app/temp_audio.webm"].

(** An embedding model whose output has a batch dimension of two. *)
Definition batch_of_two (waveform : list num) : exn + ndarray num :=
  inr (NdArray [2%nat; 0%nat; 128%nat] []).
Definition batched_env : Env num := sample_env clip 0 batch_of_two six [].

(** The mean of one frame of 128 zeros. *)
Definition one_frame_mean : ndarray num :=
  np_mean0 (NdArray [1%nat; 128%nat] (replicate 128 (p 0 1))).
End Sample.

(** ** The vocabulary of the effects *)

(** Log output, as opposed to an effect on the outside. *)
Definition is_log (ev : event) : bool :=
  match ev with
  | EvPrint _ | EvTraceback _ => true
  | _ => false
  end.

(** The events of a trace that are not log output. *)
Definition effects (tr : list event) : list event :=
  List.filter (fun ev => negb (is_log ev)) tr.

Section EffectVocabulary.
Context {F : Type} `{Floats F} (env : Env F).

(** The stages of a request in the order of the [try] block. *)
Definition pipeline : list event :=
  [EvSave (webm_path env); EvRun (transcoder_cmd env); EvLoad (wav_path env);
   EvEmbed; EvPredict].

(** How many of the stages the [try] block gets to for the upload [f]. *)
Definition stages_run (f : FileStorage) : nat :=
  match on_save f with
  | SaveFailed _ _ => 1
  | Saved =>
      if exited_zero (run_outcome (subprocess_run env (transcoder_cmd env))) then
        match librosa_load env (wav_path env) with
        | inl _ => 3
        | inr audio =>
            match GLOBAL_VGGISH_MODEL env audio with
            | inl _ => 4
            | inr _ => if pooled env (wav_path env) is Some _ then 5 else 4
            end
        end
      else 2
  end.

(** The disk when the [try] block is left. *)
Definition disk_after_try (f : FileStorage) (w : World) : gset string :=
  match on_save f with
  | SaveFailed created _ => if created then {[webm_path env]} ∪ disk w else disk w
  | Saved =>
      list_to_set (run_writes (subprocess_run env (transcoder_cmd env)))
      ∪ ({[webm_path env]} ∪ disk w)
  end.

(** The two deletions the [finally] block can attempt, in its order. *)
Definition removals : list event :=
  [EvRemove (webm_path env); EvRemove (wav_path env)].
End EffectVocabulary.

(** ** Sample requests that fail *)

Module Faults.
Import Sample.

(** An upload whose [save] raises after the file was created. *)
Definition disk_full : exn := Exn OSError "[Errno 28] No space left on device".
Definition broken_upload : FileStorage :=
  MkFileStorage "clip.webm" (SaveFailed true disk_full).
Definition unsaved_env : Env num :=
  sample_env [("audio_file", broken_upload)] 0 (vggish_frames 1) six [].

(** A machine without ffmpeg. *)
Definition no_ffmpeg : exn :=
  Exn FileNotFoundError "[Errno 2] No such file or directory: 'ffmpeg'".
Definition missing_ffmpeg_env : Env num := {|
  BASE_DIR := "/srv/app";
  request_files := clip;
  request_parse_error := None;
  subprocess_run := fun _ => MkRun (inl no_ffmpeg) [];
  librosa_load := fun _ => inr [];
  GLOBAL_VGGISH_MODEL := vggish_frames 1;
  classifier_model := constant_classifier six;
  os_remove_error := fun _ => None;
|}.

(** A classifier whose [predict] raises. *)
Definition bad_input : exn := Exn ValueError "Input 0 of layer is incompatible with the layer".
Definition crashing_env : Env num := {|
  BASE_DIR := "/srv/app";
  request_files := clip;
  request_parse_error := None;
  subprocess_run := ffmpeg_exits 0;
  librosa_load := fun _ => inr [];
  GLOBAL_VGGISH_MODEL := vggish_frames 1;
  classifier_model := fun _ => inl bad_input;
  os_remove_error := fun _ => None;
|}.

(** A form that Werkzeug refuses to parse, with no [audio_file] part. *)
Definition too_large : exn :=
  Exn HTTPException "413 Request Entity Too Large: The data value transmitted exceeds the capacity limit.".
Definition oversized_env : Env num := {|
  BASE_DIR := "/srv/app";
  request_files := [];
  request_parse_error := Some too_large;
  subprocess_run := ffmpeg_exits 0;
  librosa_load := fun _ => inr [];
  GLOBAL_VGGISH_MODEL := vggish_frames 1;
  classifier_model := constant_classifier six;
  os_remove_error := fun _ => None;
|}.

(** A world holding the classifier artifact next to the server. *)
Definition model_file : string := "/srv/app/final_audio_model.keras".
Definition installed_world : World := MkWorld {[model_file]} [].
End Faults.

(** ** Sample requests with two frames *)

Module Frames.
Import Sample.

(** Two frames of width three: (1, 2, 3) and (4, 5, 6). *)
Definition two_frames : list num := [p 1 1; p 2 1; p 3 1; p 4 1; p 5 1; p 6 1].

(** The column means of the two frames. *)
Definition frame_means : list num := [p 5 2; p 7 2; p 9 2].

(** The embedding model answers in the layout (2, 3). *)
Definition flat_env : Env num :=
  sample_env clip 0 (fun _ => inr (NdArray [2%nat; 3%nat] two_frames)) six [].

(** The embedding model answers in the layout (1, 2, 3). *)
Definition batch_env : Env num :=
  sample_env clip 0 (fun _ => inr (NdArray [1%nat; 2%nat; 3%nat] two_frames)) six [].
End Frames.

(** ** Facts about the builtins *)

Section BasicFacts.
Context {F : Type} `{Floats F}.

Lemma argmax_scan_bound (ip : list F) : ∀ mp max_ind i,
  (max_ind < i)%nat → (argmax_scan mp max_ind i ip < i + length ip)%nat.
Proof.
  induction ip as [|x rest IH]; intros mp max_ind i Hlt; simpl.
  - lia.
  - destruct (negb (fle x mp)).
    + destruct (fisnan x); [lia|].
      specialize (IH x i (S i)). lia.
    + specialize (IH mp max_ind (S i)). lia.
Qed.

Lemma argmax_in_range (a : list F) (i : nat) :
  argmax a = Some i → (i < length a)%nat.
Proof.
  destruct a as [|x rest]; simpl; [discriminate|].
  intros [= <-]. destruct (fisnan x); [lia|].
  pose proof (argmax_scan_bound rest x 0 1). lia.
Qed.

Lemma argmax_nonempty (a : list F) : a ≠ [] → is_Some (argmax a).
Proof. destruct a; [done|]. intros _. simpl. eauto. Qed.

Lemma files_contains_get (key : string) (files : list (string * FileStorage)) :
  files_contains key files = true ↔ is_Some (files_get key files).
Proof.
  unfold files_contains. rewrite bool_decide_eq_true.
  induction files as [|[k v] rest IH]; simpl.
  - split; [intros Hin; inversion Hin | intros [? [=]]].
  - rewrite elem_of_cons. destruct (String.eqb_spec k key) as [->|Hne].
    + split; eauto.
    + rewrite <- IH. split; [intros [?|?]; congruence || done | auto].
Qed.

Lemma files_contains_none (key : string) (files : list (string * FileStorage)) :
  files_get key files = None → files_contains key files = false.
Proof.
  intros Hget. destruct (files_contains key files) eqn:Hc; [|done].
  apply files_contains_get in Hc. rewrite Hget in Hc. by destruct Hc.
Qed.

Lemma files_contains_some (key : string) (files : list (string * FileStorage)) f :
  files_get key files = Some f → files_contains key files = true.
Proof. intros Hget. apply files_contains_get. eauto. Qed.

Lemma joined_path_nonempty (a b : string) : b ≠ "" → os_path_join a b ≠ "".
Proof.
  intros Hb. unfold os_path_join.
  destruct (String.prefix "/" b); [done|].
  destruct (String.eqb a "" || endswith_sep a); destruct a; simpl; done.
Qed.
End BasicFacts.

(** ** The helpers never raise *)

Section HelperFacts.
Context {F : Type} `{Floats F} (env : Env F) {L : Type}.

Lemma convert_webm_to_wav_runs (webm wav : string) (sr : Z) (s : World * L) :
  ∃ w', convert_webm_to_wav env webm wav sr s
        = (Ret (exited_zero (run_outcome (subprocess_run env (ffmpeg_cmd webm wav sr)))),
           (w', s.2))
        ∧ EvRun (ffmpeg_cmd webm wav sr) ∈ trace w'.
Proof.
  unfold convert_webm_to_wav, try_except, bind, subprocess_run_call, print, ret.
  simpl.
  destruct (run_outcome (subprocess_run env (ffmpeg_cmd webm wav sr))) as [e|result];
    simpl.
  - destruct (is_FileNotFoundError e); simpl; eexists; split; try reflexivity;
      simpl; set_solver.
  - destruct (returncode result =? 0)%Z; simpl; eexists; split; try reflexivity;
      simpl; set_solver.
Qed.


Lemma load_and_extract_feature_runs (path : string) (s : World * L) :
  ∃ w', load_and_extract_feature env path s = (Ret (pooled env path), (w', s.2)).
Proof.
  unfold load_and_extract_feature, pooled, try_except, bind, call, print, ret.
  simpl.
  destruct (librosa_load env path) as [e|audio]; simpl; [eauto|].
  destruct (GLOBAL_VGGISH_MODEL env audio) as [e|emb]; simpl; [eauto|].
  destruct emb as [sh dat]. unfold unpoolable, np_squeeze0, shape0, list_getitem. simpl.
  destruct sh as [|a [|b [|c [|d sh]]]]; simpl; eauto.
  - destruct a; simpl; eauto.
  - destruct a; simpl; eauto.
  - destruct a as [|[|a]]; simpl; eauto.
    destruct b; simpl; eauto.
  - destruct a; simpl; eauto.
Qed.

Lemma expected_layout_poolable (emb : ndarray F) :
  expected_layout emb = true → unpoolable emb = false.
Proof.
  destruct emb as [sh dat]. unfold expected_layout, unpoolable. simpl.
  destruct sh as [|a [|b [|c [|d sh]]]]; try done.
  by destruct a as [|[|a]].
Qed.

Lemma load_and_extract_feature_returns (path : string) :
  returns (L := L) (load_and_extract_feature env path) (pooled env path).
Proof.
  intros s. by destruct (load_and_extract_feature_runs path s) as (w' & ->).
Qed.
End HelperFacts.

(** ** The classification steps *)

Section ClassifyFacts.
Context {F : Type} `{Floats F} (env : Env F).

Lemma prob_dict_comprehension_ok (probs : list F) (s : World * predict_locals) :
  (NUM_CLASSES ≤ length probs)%nat →
  prob_dict_comprehension probs (seq 0 (length CLASS_NAMES)) ∅ s
  = (Ret (label_probs probs), s).
Proof.
  intros Hlen.
  destruct probs as [|p0 [|p1 [|p2 [|p3 [|p4 [|p5 rest]]]]]];
    try (exfalso; cbv in Hlen; lia).
  reflexivity.
Qed.

Lemma prob_dict_comprehension_short (probs : list F) (s : World * predict_locals) :
  (length probs < NUM_CLASSES)%nat →
  ∃ e, prob_dict_comprehension probs (seq 0 (length CLASS_NAMES)) ∅ s = (Raise e, s).
Proof.
  intros Hlen.
  destruct probs as [|p0 [|p1 [|p2 [|p3 [|p4 [|p5 rest]]]]]];
    try (eexists; reflexivity).
  exfalso. cbv in Hlen. lia.
Qed.

Lemma label_probs_lookup (probs : list F) (i : nat) (label : string) :
  (NUM_CLASSES ≤ length probs)%nat →
  CLASS_NAMES !! i = Some label →
  ∃ x, probs !! i = Some x ∧ label_probs probs !! label = Some x.
Proof.
  intros Hlen Hi.
  destruct probs as [|p0 [|p1 [|p2 [|p3 [|p4 [|p5 rest]]]]]];
    try (exfalso; cbv in Hlen; lia).
  do 6 (destruct i as [|i]; [injection Hi as <-; eexists; split; [reflexivity|];
                             vm_compute; reflexivity |]).
  discriminate Hi.
Qed.

Lemma label_probs_dom (probs : list F) :
  (NUM_CLASSES ≤ length probs)%nat →
  dom (label_probs probs) = list_to_set CLASS_NAMES.
Proof.
  intros Hlen.
  destruct probs as [|p0 [|p1 [|p2 [|p3 [|p4 [|p5 rest]]]]]];
    try (exfalso; cbv in Hlen; lia).
  unfold label_probs. simpl. rewrite !dom_insert_L, dom_empty_L. set_solver.
Qed.

(** The classification steps either raise, on an output that cannot be
    labelled, or return the prediction body built from the first row. *)
Lemma predict_audio_classify_cases (features : ndarray F) (s : World * predict_locals) :
  let o := classifier_model env (np_expand_dims0 features) in
  (∃ e, unlabelable o
        ∧ predict_audio_classify env features s = (Raise e, (emit EvPredict s.1, s.2)))
  ∨ (∃ probs rows i name,
        o = inr (probs :: rows) ∧ (NUM_CLASSES ≤ length probs)%nat
        ∧ argmax probs = Some i ∧ CLASS_NAMES !! i = Some name
        ∧ predict_audio_classify env features s
          = (Ret (RvBody (prediction_body name probs)), (emit EvPredict s.1, s.2))).
Proof.
  intros o. unfold predict_audio_classify, bind, call. fold o.
  remember (seq 0 (length CLASS_NAMES)) as idxs eqn:Hidxs.
  destruct o as [e|[|probs rows]] eqn:Ho; simpl.
  - left. eexists. split; [exact I | reflexivity].
  - left. eexists. split; [exact I | reflexivity].
  - unfold np_argmax.
    destruct (argmax probs) as [i|] eqn:Harg; simpl.
    2:{ left. eexists. split; [|reflexivity].
        left. destruct probs; [cbv; lia | discriminate]. }
    unfold list_getitem.
    destruct (CLASS_NAMES !! i) as [name|] eqn:Hname; simpl.
    2:{ left. eexists. split; [|reflexivity].
        right. exists i. split; [done|]. by apply lookup_ge_None. }
    subst idxs.
    destruct (decide (NUM_CLASSES ≤ length probs)%nat) as [Hlen|Hlen].
    + right. exists probs, rows, i, name.
      rewrite prob_dict_comprehension_ok by done. done.
    + left.
      destruct (prob_dict_comprehension_short probs (emit EvPredict s.1, s.2)) as [e He];
        [lia|].
      exists e. split; [left; lia|]. by rewrite He.
Qed.
End ClassifyFacts.

(** ** The handler, stage by stage *)

Section HandlerFacts.
Context {F : Type} `{Floats F} (env : Env F).

Lemma is_OSError_os_error (err : os_error) (path : string) :
  is_OSError (exn_of_os_error err path) = true.
Proof. by destruct err. Qed.

Lemma cleanup_one_runs (p : option string) (s : World * predict_locals) :
  ∃ w', cleanup_one env p s = (Ret tt, (w', s.2))
        ∧ disk w' ⊆ disk s.1
        ∧ (∀ path, p = Some path → path ≠ "" →
                   os_remove_error env path = None → path ∉ disk w').
Proof.
  destruct s as [w l]. unfold cleanup_one.
  destruct p as [path|]; simpl.
  2:{ exists w. split_and!; [done..|]. intros ? ?; discriminate. }
  destruct (String.eqb_spec path "") as [->|Hne]; simpl.
  { exists w. split_and!; [done..|]. by intros ? [= <-] ?. }
  unfold bind, os_path_exists, try_except, os_remove, ret. simpl.
  destruct (bool_decide (path ∈ disk w)) eqn:Hin; simpl.
  - destruct (os_remove_error env path) as [err|] eqn:Herr; simpl.
    + rewrite is_OSError_os_error. eexists. split_and!; [done..|].
      intros ? [= <-] _ Hnone. congruence.
    + rewrite Hin. eexists. split_and!; [done | |].
      * simpl. intros q Hq. apply elem_of_difference in Hq. tauto.
      * intros ? [= <-] _ _. simpl. rewrite elem_of_difference, elem_of_singleton. tauto.
  - exists w. split_and!; [done..|].
    intros ? [= <-] _ _. by apply bool_decide_eq_false in Hin.
Qed.

Lemma predict_audio_finally_runs (s : World * predict_locals) :
  ∃ w', predict_audio_finally env s = (Ret tt, (w', s.2))
        ∧ disk w' ⊆ disk s.1
        ∧ (∀ path, temp_webm_path s.2 = Some path ∨ temp_wav_path s.2 = Some path →
                   path ≠ "" → os_remove_error env path = None → path ∉ disk w').
Proof.
  unfold predict_audio_finally, bind, get_locals.
  destruct (cleanup_one_runs (temp_webm_path s.2) s) as (w1 & -> & Hsub1 & Hgone1).
  destruct (cleanup_one_runs (temp_wav_path s.2) (w1, s.2)) as (w2 & -> & Hsub2 & Hgone2).
  simpl in *. exists w2. split_and!; [done | set_solver |].
  intros path [Hp|Hp] Hne Hnone.
  - specialize (Hgone1 path Hp Hne Hnone). set_solver.
  - by apply Hgone2.
Qed.

(** The guarded [try] block: [try ... except Exception]. *)
Local Abbreviation guarded := (try_except (predict_audio_try env) predict_audio_except).

Lemma guarded_parse_error (e : exn) (s : World * predict_locals) :
  request_parse_error env = Some e →
  guarded s = (Ret (RvTuple (internal_error_body (exn_str e)) 500),
               (emit (EvTraceback e) s.1, s.2)).
Proof.
  intros Hparse. unfold try_except, predict_audio_try, bind at 1, request_dot_files.
  by rewrite Hparse.
Qed.

Lemma guarded_no_field (s : World * predict_locals) :
  request_parse_error env = None →
  files_get "audio_file" (request_files env) = None →
  guarded s = (Ret (RvTuple (error_body "No audio_file part in the request") 400), s).
Proof.
  intros Hparse Hget. unfold try_except, predict_audio_try, bind at 1, request_dot_files.
  rewrite Hparse. simpl.
  by rewrite (files_contains_none _ _ Hget).
Qed.

Lemma guarded_empty_filename (f : FileStorage) (s : World * predict_locals) :
  request_parse_error env = None →
  files_get "audio_file" (request_files env) = Some f → filename f = "" →
  guarded s = (Ret (RvTuple (error_body "No selected file") 400), s).
Proof.
  intros Hparse Hget Hname.
  unfold try_except, predict_audio_try, bind at 1, request_dot_files.
  rewrite Hparse. simpl.
  rewrite (files_contains_some _ _ _ Hget). simpl.
  unfold bind at 1. simpl.
  unfold bind, files_getitem. rewrite Hget. simpl. by rewrite Hname.
Qed.

Lemma guarded_after_upload (f : FileStorage) (s : World * predict_locals) :
  accepted_upload env f →
  ∃ rv w', guarded s
           = (Ret rv, (w', MkLocals (Some (webm_path env)) (Some (wav_path env))))
           ∧ after_upload env f rv.
Proof.
  intros (Hparse & Hget & Hname). destruct s as [w l].
  unfold try_except, predict_audio_try, after_upload.
  unfold bind at 1. unfold request_dot_files. rewrite Hparse. simpl.
  rewrite (files_contains_some _ _ _ Hget). simpl.
  unfold bind at 1. simpl.
  unfold bind at 1. unfold files_getitem. rewrite Hget. simpl.
  destruct (String.eqb_spec (filename f) "") as [|_]; [done|].
  fold (webm_path env). fold (wav_path env).
  unfold bind at 1 2 3 4 5. simpl.
  unfold FileStorage_save. simpl.
  destruct (on_save f) as [|created e]; simpl.
  2:{ unfold predict_audio_except, bind, traceback_print_exc, ret. simpl.
      eexists _, _. split; [reflexivity | done]. }
  unfold bind at 1 2. unfold print at 1. simpl.
  match goal with
  | |- context [convert_webm_to_wav env ?a ?b ?c ?st] =>
      destruct (convert_webm_to_wav_runs env a b c st) as (w1 & -> & _)
  end.
  fold (transcoder_cmd env). simpl.
  destruct (exited_zero (run_outcome (subprocess_run env (transcoder_cmd env)))); simpl.
  2:{ eexists _, _. split; reflexivity. }
  unfold bind at 1.
  match goal with
  | |- context [load_and_extract_feature env ?a ?st] =>
      destruct (load_and_extract_feature_runs env a st) as (w2 & ->)
  end.
  simpl. destruct (pooled env (wav_path env)) as [features|]; simpl.
  2:{ eexists _, _. split; reflexivity. }
  match goal with
  | |- context [predict_audio_classify env ?a ?st] =>
      destruct (predict_audio_classify_cases env a st)
        as [(e & Hbad & ->)|(probs & rows & i & name & Ho & Hlen & Harg & Hname' & ->)]
  end.
  - unfold predict_audio_except, bind, traceback_print_exc, ret. simpl.
    eexists _, _. split; [reflexivity|]. left. eauto.
  - eexists _, _. split; [reflexivity|]. right. eauto 10.
Qed.

(** After the guarded block returned, the [finally] block runs and Flask
    builds the response; what is left on disk was there before. *)
Lemma serve_predict_runs (w : World) rv (s' : World * predict_locals) :
  guarded (w, MkLocals None None) = (Ret rv, s') →
  ∃ w', serve_predict env w = (Ret (make_response rv), w')
        ∧ (s'.2 = MkLocals None None → w' = s'.1)
        ∧ (∀ path, temp_webm_path s'.2 = Some path ∨ temp_wav_path s'.2 = Some path →
                   path ≠ "" → os_remove_error env path = None → path ∉ disk w').
Proof.
  intros Hguarded. unfold serve_predict, predict_audio, try_finally.
  rewrite Hguarded.
  destruct (predict_audio_finally_runs s') as (w' & Hfin & _ & Hgone).
  rewrite Hfin. exists w'. split_and!; [done | | done].
  intros Hloc. unfold predict_audio_finally, bind, get_locals in Hfin.
  rewrite Hloc in Hfin. simpl in Hfin. unfold ret in Hfin. injection Hfin as Hs. by rewrite Hs.
Qed.
End HandlerFacts.

(** ** How a request is answered *)

Section Responses.
Context {F : Type} `{Floats F} (env : Env F).

(** Every request is answered, from one of three kinds of run: the upload
    is rejected and nothing happens, the form does not parse and only the
    traceback is logged, or the upload is accepted and the temp files are
    cleaned up afterwards. *)
Lemma serve_predict_cases (w : World) :
  ∃ rv w', serve_predict env w = (Ret (make_response rv), w')
    ∧ ((∃ msg, rv = RvTuple (error_body msg) 400 ∧ w' = w
               ∧ ∀ f, ¬ accepted_upload env f)
       ∨ (∃ e, request_parse_error env = Some e
               ∧ rv = RvTuple (internal_error_body (exn_str e)) 500
               ∧ w' = emit (EvTraceback e) w
               ∧ ∀ f, ¬ accepted_upload env f)
       ∨ (∃ f, accepted_upload env f ∧ after_upload env f rv
               ∧ (os_remove_error env (webm_path env) = None → webm_path env ∉ disk w')
               ∧ (os_remove_error env (wav_path env) = None → wav_path env ∉ disk w'))).
Proof.
  destruct (request_parse_error env) as [e|] eqn:Hparse.
  { pose proof (guarded_parse_error env e (w, MkLocals None None) Hparse) as Hg.
    destruct (serve_predict_runs env w _ _ Hg) as (w' & Hserve & Hsame & _).
    exists (RvTuple (internal_error_body (exn_str e)) 500), w'.
    split; [done|]. right. left. exists e. split_and!; [done | done | by apply Hsame |].
    intros f' (Hparse' & _). congruence. }
  destruct (files_get "audio_file" (request_files env)) as [f|] eqn:Hget.
  - destruct (decide (filename f = "")) as [Hname|Hname].
    + pose proof (guarded_empty_filename env f (w, MkLocals None None) Hparse Hget Hname)
        as Hg.
      destruct (serve_predict_runs env w _ _ Hg) as (w' & Hserve & Hsame & _).
      exists (RvTuple (error_body "No selected file") 400), w'.
      split; [done|]. left. eexists. split_and!; [done | by apply Hsame |].
      intros f' (_ & Hget' & Hname'). congruence.
    + destruct (guarded_after_upload env f (w, MkLocals None None)) as (rv & w1 & Hg & Hafter);
        [done|].
      destruct (serve_predict_runs env w _ _ Hg) as (w' & Hserve & _ & Hgone).
      exists rv, w'. split; [done|]. right. right. exists f. split_and!; [done | done | |].
      * intros Hrm. apply Hgone; [by left | | done].
        by apply joined_path_nonempty.
      * intros Hrm. apply Hgone; [by right | | done].
        by apply joined_path_nonempty.
  - pose proof (guarded_no_field env (w, MkLocals None None) Hparse Hget) as Hg.
    destruct (serve_predict_runs env w _ _ Hg) as (w' & Hserve & Hsame & _).
    exists (RvTuple (error_body "No audio_file part in the request") 400), w'.
    split; [done|]. left. eexists. split_and!; [done | by apply Hsame |].
    intros f' (_ & Hget' & _). congruence.
Qed.

(** The status and the shape of the body, for each way [after_upload]
    can hold. *)
Lemma after_upload_status (f : FileStorage) (rv : view_rv F) :
  after_upload env f rv →
  (resp_status (make_response rv) = 500
     ∧ ∃ msg, resp_body (make_response rv) = error_body msg
              ∨ resp_body (make_response rv) = internal_error_body msg)
  ∨ (∃ features probs rows i name,
        on_save f = Saved
        ∧ exited_zero (run_outcome (subprocess_run env (transcoder_cmd env))) = true
        ∧ pooled env (wav_path env) = Some features
        ∧ classifier_model env (np_expand_dims0 features) = inr (probs :: rows)
        ∧ (NUM_CLASSES ≤ length probs)%nat
        ∧ argmax probs = Some i ∧ CLASS_NAMES !! i = Some name
        ∧ rv = RvBody (prediction_body name probs)).
Proof.
  unfold after_upload.
  destruct (on_save f) as [|created e].
  2:{ intros ->. left. split; [done|]. eauto. }
  destruct (exited_zero _) eqn:Hzero.
  2:{ intros ->. left. split; [done|]. eauto. }
  destruct (pooled env (wav_path env)) as [features|] eqn:Hpool.
  2:{ intros ->. left. split; [done|]. eauto. }
  intros [(e & _ & ->)|(probs & rows & i & name & Ho & Hlen & Harg & Hname & ->)].
  - left. split; [done|]. eauto.
  - right. exists features, probs, rows, i, name. done.
Qed.
End Responses.

Section Bodies.
Context {F : Type}.

Lemma error_body_keys (msg : string) :
  @error_body F msg = JObject {["error" := JString msg]}.
Proof. reflexivity. Qed.

Lemma internal_error_body_keys (details : string) :
  @internal_error_body F details
  = JObject (<["details" := JString details]> {["error" := JString "Internal server error"]}).
Proof. reflexivity. Qed.

Lemma prediction_body_keys `{Floats F} (name : string) (probs : list F) :
  prediction_body name probs
  = JObject (<["probabilities_dict" := JObject (JNumber <$> label_probs probs)]>
               (<["probabilities" := JArray (JNumber <$> probs)]>
                  {["predicted_class" := JString name]})).
Proof. reflexivity. Qed.
End Bodies.

(** ** The properties of the specification *)

Section Claims.
Context {F : Type} `{Floats F}.

(** C1: in every 200 response of POST /predict, [predicted_class] is the
    label at the argmax index of the returned [probabilities] list, and
    [probabilities_dict] maps the i-th label to the i-th entry of that list
    for every index i of the label set. *)
Theorem predicted_class_is_argmax_label (env : Env F) (w w' : World) (resp : Response F) :
  serve_predict env w = (Ret resp, w') →
  resp_status resp = 200 →
  ∃ m name probs d,
    resp_body resp = JObject m
    ∧ m !! "predicted_class" = Some (JString name)
    ∧ m !! "probabilities" = Some (JArray (JNumber <$> probs))
    ∧ m !! "probabilities_dict" = Some (JObject (JNumber <$> d))
    ∧ (∃ i, argmax probs = Some i ∧ CLASS_NAMES !! i = Some name)
    ∧ (∀ i label, CLASS_NAMES !! i = Some label →
                  ∃ x, probs !! i = Some x ∧ d !! label = Some x)
    ∧ dom d = list_to_set CLASS_NAMES.
Proof.
  intros Hserve Hstatus.
  destruct (serve_predict_cases env w) as (rv & w1 & Hrun & Hcases).
  rewrite Hrun in Hserve. injection Hserve as <- <-.
  destruct Hcases as [(msg & -> & _)|[(e & _ & -> & _)|(f & _ & Hafter & _)]];
    [discriminate Hstatus..|].
  apply after_upload_status in Hafter
    as [[H500 _]|(features & probs & rows & i & name & _ & _ & _ & _ & Hlen & Harg & Hname & ->)].
  { rewrite H500 in Hstatus. discriminate Hstatus. }
  simpl. rewrite prediction_body_keys.
  eexists _, name, probs, (label_probs probs).
  split_and!; [reflexivity | reflexivity | reflexivity | reflexivity | eauto | |].
  - intros j label Hj. by apply label_probs_lookup.
  - by apply label_probs_dom.
Qed.

(** C2, as amended: in every 200 response of POST /predict the
    [probabilities] list is the first row of the classifier's output,
    entry for entry, so it is as long as that output is wide, which is at
    least the size of the label set. *)
Theorem probabilities_are_classifier_row (env : Env F) (w w' : World) (resp : Response F) :
  serve_predict env w = (Ret resp, w') →
  resp_status resp = 200 →
  ∃ features probs rows,
    returns (L := predict_locals) (load_and_extract_feature env (wav_path env))
            (Some features)
    ∧ classifier_model env (np_expand_dims0 features) = inr (probs :: rows)
    ∧ probabilities_of (resp_body resp) = Some (JNumber <$> probs)
    ∧ (NUM_CLASSES ≤ length probs)%nat.
Proof.
  intros Hserve Hstatus.
  destruct (serve_predict_cases env w) as (rv & w1 & Hrun & Hcases).
  rewrite Hrun in Hserve. injection Hserve as <- <-.
  destruct Hcases as [(msg & -> & _)|[(e & _ & -> & _)|(f & _ & Hafter & _)]];
    [discriminate Hstatus..|].
  apply after_upload_status in Hafter
    as [[H500 _]|(features & probs & rows & i & name & _ & _ & Hpool & Ho & Hlen & _ & _ & ->)].
  { rewrite H500 in Hstatus. discriminate Hstatus. }
  exists features, probs, rows. split_and!; [| done | reflexivity | done].
  rewrite <- Hpool. apply load_and_extract_feature_returns.
Qed.

(** C3, as amended: a request whose upload is accepted is always answered,
    and afterwards each of the two temp files is gone unless its deletion
    raised a filesystem error, which the cleanup swallows. *)
Theorem temp_files_removed_unless_deletion_fails (env : Env F) (w : World) (f : FileStorage) :
  accepted_upload env f →
  ∃ resp w',
    serve_predict env w = (Ret resp, w')
    ∧ (os_remove_error env (webm_path env) = None → webm_path env ∉ disk w')
    ∧ (os_remove_error env (wav_path env) = None → wav_path env ∉ disk w').
Proof.
  intros Hf.
  destruct (serve_predict_cases env w) as (rv & w' & Hrun & Hcases).
  exists (make_response rv), w'. split; [done|].
  destruct Hcases as [(msg & _ & _ & Hnone)|[(e & _ & _ & _ & Hnone)|(f' & _ & _ & Hwebm & Hwav)]];
    [| |done]; by destruct (Hnone f).
Qed.

(** C4: [convert_webm_to_wav] never raises; it returns [True] exactly
    when the transcoding process ran and exited with code zero, and
    [False] when the tool is missing, when the exit code is not zero, and
    on any other exception of the invocation. *)
Theorem convert_webm_to_wav_never_raises {L : Type} (env : Env F)
    (webm wav : string) (sr : Z) (s : World * L) :
  ∃ b s',
    convert_webm_to_wav env webm wav sr s = (Ret b, s')
    ∧ (b = true ↔ ∃ err, run_outcome (subprocess_run env (ffmpeg_cmd webm wav sr))
                         = inr (MkCompleted 0 err))
    ∧ (∀ e, run_outcome (subprocess_run env (ffmpeg_cmd webm wav sr)) = inl e → b = false)
    ∧ (∀ result, run_outcome (subprocess_run env (ffmpeg_cmd webm wav sr)) = inr result →
                 returncode result ≠ 0%Z → b = false).
Proof.
  destruct (convert_webm_to_wav_runs env webm wav sr s) as (w' & Hrun & _).
  eexists _, _. split; [exact Hrun|].
  destruct (run_outcome (subprocess_run env (ffmpeg_cmd webm wav sr))) as [e|[code err]];
    simpl.
  - split_and!; [|done|intros ? [=]].
    split; [done | intros [? [=]]].
  - split_and!; [|intros ? [=]|].
    + rewrite Z.eqb_eq. split; [intros ->; eauto | by intros [? [= -> _]]].
    + intros ? [= <-] Hne. simpl in Hne. by apply Z.eqb_neq.
Qed.

(** C5: [load_and_extract_feature] never raises.  It returns [None]
    exactly when a statement of its [try] block raises; when the embedding
    model gives its outputs in the layouts the extractor expects, (T, d) or
    (1, T, d), that is exactly when loading or inference raises.  A
    zero-frame output yields the zero vector, not [None], so a failure is
    told apart from a zero vector. *)
Theorem extractor_none_iff_loading_or_inference_raises {L : Type} (env : Env F)
    (path : string) (s : World * L) :
  ∃ o s',
    load_and_extract_feature env path s = (Ret o, s')
    ∧ (load_or_inference_raises env path → o = None)
    ∧ (o = None ↔ extraction_raises env path)
    ∧ ((∀ audio emb, librosa_load env path = inr audio →
                     GLOBAL_VGGISH_MODEL env audio = inr emb →
                     expected_layout emb = true) →
       (o = None ↔ load_or_inference_raises env path))
    ∧ (∀ audio emb, librosa_load env path = inr audio →
                    GLOBAL_VGGISH_MODEL env audio = inr emb →
                    zero_frames emb = true →
                    o = Some (np_zeros EMBEDDING_SIZE) ∧ o ≠ None).
Proof.
  destruct (load_and_extract_feature_runs env path s) as (w' & Hrun).
  eexists _, _. split; [exact Hrun|].
  unfold extraction_raises, load_or_inference_raises, pooled.
  destruct (librosa_load env path) as [e|audio] eqn:Hload.
  { split_and!; [done | split; eauto | intros _; split; eauto | intros ?? [=]]. }
  destruct (GLOBAL_VGGISH_MODEL env audio) as [e|emb] eqn:Hemb.
  { split_and!; [done | split; eauto 10 | intros _; split; eauto 10
                | intros ?? [= <-]; congruence]. }
  assert (Hno : ¬ ((∃ e, @inr exn (list F) audio = inl e)
                   ∨ ∃ audio0 e, @inr exn (list F) audio = inr audio0
                                 ∧ GLOBAL_VGGISH_MODEL env audio0 = inl e)).
  { intros [[e [=]]|(audio0 & e & [= <-] & He)]. congruence. }
  split_and!.
  - intros Hraises. by destruct Hno.
  - split.
    + intros Hnone. right. exists audio, emb. split_and!; [done..|].
      destruct (unpoolable emb); [done|].
      by destruct (0 <? _)%nat.
    + intros [Hraises|(audio0 & emb0 & [= <-] & Hemb0 & Hbad)]; [by destruct Hno|].
      assert (emb0 = emb) as -> by congruence. by rewrite Hbad.
  - intros Hlayout. specialize (Hlayout audio emb eq_refl Hemb).
    split; [|intros Hraises; by destruct Hno].
    intros Hnone. exfalso.
    rewrite (expected_layout_poolable _ Hlayout) in Hnone.
    by destruct (0 <? _)%nat.
  - intros audio0 emb0 [= <-] Hemb0 Hzero.
    assert (emb0 = emb) as -> by congruence.
    destruct emb as [sh dat]. unfold zero_frames, unpoolable in *. simpl in *.
    destruct sh as [|[|[|a]] [|[|b] [|c [|d sh]]]]; try discriminate Hzero; done.
Qed.

(** C6: when the embedding model yields zero time frames, the extractor
    returns the zero vector of the embedding width (128) instead of raising
    or returning [None]; and a request that reaches extraction with such an
    input is answered with a well-formed 200 response, built from the row
    the classifier gives for that zero vector, when that row has one entry
    per label. *)
Theorem zero_frames_yield_zero_vector (env : Env F) (path : string)
    (audio : list F) (emb : ndarray F) :
  librosa_load env path = inr audio →
  GLOBAL_VGGISH_MODEL env audio = inr emb →
  zero_frames emb = true →
  returns (L := predict_locals) (load_and_extract_feature env path)
          (Some (np_zeros EMBEDDING_SIZE))
  ∧ shape (np_zeros (F := F) EMBEDDING_SIZE) = [128]
  ∧ data (np_zeros (F := F) EMBEDDING_SIZE) = replicate 128 fzero
  ∧ (path = wav_path env →
     reaches_extraction env →
     ∀ probs rows w,
       classifier_model env (np_expand_dims0 (np_zeros EMBEDDING_SIZE)) = inr (probs :: rows) →
       length probs = NUM_CLASSES →
       ∃ i name w',
         serve_predict env w = (Ret (MkResponse (prediction_body name probs) 200), w')
         ∧ argmax probs = Some i ∧ CLASS_NAMES !! i = Some name
         ∧ probabilities_of (prediction_body name probs) = Some (JNumber <$> probs)
         ∧ dom (label_probs probs) = list_to_set CLASS_NAMES).
Proof.
  intros Hload Hemb Hzero.
  assert (Hpool : pooled env path = Some (np_zeros EMBEDDING_SIZE)).
  { unfold pooled. rewrite Hload, Hemb.
    destruct emb as [sh dat]. unfold zero_frames, unpoolable in *. simpl in *.
    destruct sh as [|[|[|a]] [|[|b] [|c [|d sh]]]]; try discriminate Hzero; reflexivity. }
  split_and!; [| reflexivity | reflexivity |].
  - intros s. destruct (load_and_extract_feature_runs env path s) as (w' & ->).
    simpl. by rewrite Hpool.
  - intros -> (f & Hf & Hsaved & Hexit) probs rows w Ho Hlen.
    destruct (serve_predict_cases env w) as (rv & w' & Hrun & Hcases).
    destruct Hcases as [(msg & _ & _ & Hnone)|[(e0 & _ & _ & _ & Hnone)|(f' & Hf' & Hafter & _)]];
      [by destruct (Hnone f)..|].
    assert (f' = f) as -> by (destruct Hf as (_ & ? & _), Hf' as (_ & ? & _); congruence).
    unfold after_upload in Hafter. rewrite Hsaved, Hexit, Hpool in Hafter.
    rewrite Ho in Hafter.
    destruct Hafter as [(e & Hbad & _)|(probs' & rows' & i & name & [= <- <-] & Hlen' & Harg & Hname & ->)].
    + exfalso. simpl in Hbad. destruct Hbad as [Hshort|(i & Harg & Hi)]; [lia|].
      apply argmax_in_range in Harg. lia.
    + exists i, name, w'. split_and!; [done | done | done | reflexivity |].
      by apply label_probs_dom.
Qed.

(** C7, as amended: when the form parses and the field [audio_file] is
    absent, or present with an empty filename, the response is a 400 whose
    body has an [error] key, and the world is left exactly as it was:
    nothing is saved, no transcoder runs, no model is called. *)
Theorem rejected_upload_is_400_without_effects (env : Env F) (w : World) :
  request_parse_error env = None →
  files_get "audio_file" (request_files env) = None
  ∨ (∃ f, files_get "audio_file" (request_files env) = Some f ∧ filename f = "") →
  ∃ msg,
    serve_predict env w
    = (Ret (MkResponse (JObject {["error" := JString msg]}) 400), w).
Proof.
  intros Hparse Hrejected.
  destruct (serve_predict_cases env w) as (rv & w' & Hrun & Hcases).
  destruct Hcases as [(msg & -> & -> & _)|[(e & Hparse' & _)|(f & (_ & Hget & Hname) & _)]].
  - exists msg. by rewrite Hrun.
  - congruence.
  - exfalso. destruct Hrejected as [Hnone|(f' & Hget' & Hname')]; congruence.
Qed.

(** C8: when the upload is saved and the transcoder exits with a
    non-zero code, the response is a 500 whose body has an [error] key
    with the message about the failed conversion. *)
Theorem failed_transcoding_is_500 (env : Env F) (w : World)
    (f : FileStorage) (result : CompletedProcess) :
  accepted_upload env f →
  on_save f = Saved →
  run_outcome (subprocess_run env (transcoder_cmd env)) = inr result →
  returncode result ≠ 0%Z →
  ∃ w',
    serve_predict env w
    = (Ret (MkResponse
              (JObject {["error" := JString "Failed to convert audio with ffmpeg. Ensure ffmpeg is installed and accessible from PATH."]})
              500), w').
Proof.
  intros Hf Hsaved Hrun Hcode.
  destruct (serve_predict_cases env w) as (rv & w' & Hserve & Hcases).
  destruct Hcases as [(msg & _ & _ & Hnone)|[(e0 & _ & _ & _ & Hnone)|(f' & Hf' & Hafter & _)]];
    [by destruct (Hnone f)..|].
  assert (f' = f) as -> by (destruct Hf as (_ & ? & _), Hf' as (_ & ? & _); congruence).
  unfold after_upload in Hafter. rewrite Hsaved, Hrun in Hafter. simpl in Hafter.
  apply Z.eqb_neq in Hcode. rewrite Hcode in Hafter. subst rv.
  exists w'. exact Hserve.
Qed.

(** C9: when the classification steps are reached and the classifier's
    row has fewer entries than the label set, or its argmax index is at or
    beyond the size of the label set, the lookup raises and the response is
    the generic 500: an [error] key saying Internal server error and a
    [details] key. *)
Theorem unlabelable_row_is_internal_error (env : Env F) (w : World)
    (features : ndarray F) (probs : list F) (rows : list (list F)) :
  reaches_extraction env →
  returns (L := predict_locals) (load_and_extract_feature env (wav_path env)) (Some features) →
  classifier_model env (np_expand_dims0 features) = inr (probs :: rows) →
  (length probs < NUM_CLASSES)%nat ∨ (∃ i, argmax probs = Some i ∧ (NUM_CLASSES ≤ i)%nat) →
  ∃ details w',
    serve_predict env w
    = (Ret (MkResponse
              (JObject (<["details" := JString details]>
                          {["error" := JString "Internal server error"]}))
              500), w').
Proof.
  intros (f & Hf & Hsaved & Hexit) Hfeatures Ho Hbad.
  assert (Hpool : pooled env (wav_path env) = Some features).
  { specialize (Hfeatures (w, MkLocals None None)).
    destruct (load_and_extract_feature_runs env (wav_path env) (w, MkLocals None None))
      as (w1 & Hrun).
    rewrite Hrun in Hfeatures. simpl in Hfeatures. congruence. }
  destruct (serve_predict_cases env w) as (rv & w' & Hserve & Hcases).
  destruct Hcases as [(msg & _ & _ & Hnone)|[(e0 & _ & _ & _ & Hnone)|(f' & Hf' & Hafter & _)]];
    [by destruct (Hnone f)..|].
  assert (f' = f) as -> by (destruct Hf as (_ & ? & _), Hf' as (_ & ? & _); congruence).
  unfold after_upload in Hafter. rewrite Hsaved, Hexit, Hpool, Ho in Hafter.
  destruct Hafter as [(e & _ & ->)|(probs' & rows' & i & name & [= <- <-] & Hlen & Harg & Hname & _)].
  - exists (exn_str e), w'. exact Hserve.
  - exfalso. destruct Hbad as [Hshort|(j & Harg' & Hj)]; [lia|].
    assert (j = i) as -> by congruence.
    apply lookup_lt_Some in Hname. change (length CLASS_NAMES) with NUM_CLASSES in Hname. lia.
Qed.

(** C10: every POST /predict request is answered with status 200, 400 or
    500; the body of a non-200 response has an [error] key; the body of a
    200 response has exactly the keys [predicted_class], [probabilities]
    and [probabilities_dict]. *)
Theorem every_response_is_200_400_or_500 (env : Env F) (w : World) :
  ∃ resp w' m,
    serve_predict env w = (Ret resp, w')
    ∧ resp_body resp = JObject m
    ∧ (resp_status resp = 200 ∨ resp_status resp = 400 ∨ resp_status resp = 500)
    ∧ (resp_status resp ≠ 200 → is_Some (m !! "error"))
    ∧ (resp_status resp = 200 →
       dom m = ({["predicted_class"; "probabilities"; "probabilities_dict"]} : gset string)).
Proof.
  destruct (serve_predict_cases env w) as (rv & w' & Hserve & Hcases).
  exists (make_response rv), w'.
  destruct Hcases as [(msg & -> & _)|[(e & _ & -> & _)|(f & _ & Hafter & _)]].
  { eexists. split_and!; [done | apply error_body_keys | auto | | done].
    intros _. by rewrite lookup_singleton_eq. }
  { eexists. split_and!; [done | apply internal_error_body_keys | auto | | done].
    intros _. rewrite lookup_insert_ne by done. by rewrite lookup_singleton_eq. }
  apply after_upload_status in Hafter
    as [[H500 [msg [Hbody|Hbody]]]|(features & probs & rows & i & name & _ & _ & _ & _ & _ & _ & _ & ->)].
  - eexists. split_and!; [done | by rewrite Hbody, error_body_keys | auto | |].
    + intros _. by rewrite lookup_singleton_eq.
    + rewrite H500. discriminate.
  - eexists. split_and!; [done | by rewrite Hbody, internal_error_body_keys | auto | |].
    + intros _. rewrite lookup_insert_ne by done. by rewrite lookup_singleton_eq.
    + rewrite H500. discriminate.
  - eexists. split_and!; [done | apply prediction_body_keys | by left | done |].
    intros _. rewrite !dom_insert_L, dom_singleton_L. set_solver.
Qed.
End Claims.

(** ** The properties on sample requests *)

Import Sample.

(** C1 on a request whose classifier answers with six probabilities, the
    largest for dog_bark. *)
Lemma predicted_class_is_argmax_label_example :
  serve_predict good_env empty_world
  = (Ret (MkResponse (prediction_body "dog_bark" six) 200),
     (serve_predict good_env empty_world).2)
  ∧ resp_status (MkResponse (prediction_body "dog_bark" six) 200) = 200
  ∧ ∃ m name probs d,
      resp_body (MkResponse (prediction_body "dog_bark" six) 200) = JObject m
      ∧ m !! "predicted_class" = Some (JString name)
      ∧ m !! "probabilities" = Some (JArray (JNumber <$> probs))
      ∧ m !! "probabilities_dict" = Some (JObject (JNumber <$> d))
      ∧ (∃ i, argmax probs = Some i ∧ CLASS_NAMES !! i = Some name)
      ∧ (∀ i label, CLASS_NAMES !! i = Some label →
                    ∃ x, probs !! i = Some x ∧ d !! label = Some x)
      ∧ dom d = list_to_set CLASS_NAMES.
Proof.
  split; [vm_compute; reflexivity|]. split; [reflexivity|].
  apply (predicted_class_is_argmax_label good_env empty_world
           (serve_predict good_env empty_world).2).
  - vm_compute. reflexivity.
  - reflexivity.
Defined.

(** C2 as stated fails: a classifier seven outputs wide, whose largest
    entry is the first, is answered with status 200 and a [probabilities]
    list of seven entries, one more than the label set has. *)
Lemma probabilities_longer_than_label_set :
  ∃ resp w' xs,
    serve_predict wide_env empty_world = (Ret resp, w')
    ∧ resp_status resp = 200
    ∧ probabilities_of (resp_body resp) = Some xs
    ∧ length xs = 7
    ∧ length xs ≠ NUM_CLASSES.
Proof.
  exists (MkResponse (prediction_body "baby_cry" seven) 200),
         (serve_predict wide_env empty_world).2,
         (JNumber <$> seven).
  split_and!; [vm_compute; reflexivity | reflexivity | reflexivity | reflexivity |].
  vm_compute. discriminate.
Qed.

(** C2, as amended, on the same request: the seven entries are the
    classifier's row. *)
Lemma probabilities_are_classifier_row_example :
  serve_predict wide_env empty_world
  = (Ret (MkResponse (prediction_body "baby_cry" seven) 200),
     (serve_predict wide_env empty_world).2)
  ∧ resp_status (MkResponse (prediction_body "baby_cry" seven) 200) = 200
  ∧ ∃ features probs rows,
      returns (L := predict_locals) (load_and_extract_feature wide_env (wav_path wide_env))
              (Some features)
      ∧ classifier_model wide_env (np_expand_dims0 features) = inr (probs :: rows)
      ∧ probabilities_of (resp_body (MkResponse (prediction_body "baby_cry" seven) 200))
        = Some (JNumber <$> probs)
      ∧ (NUM_CLASSES ≤ length probs)%nat.
Proof.
  split; [vm_compute; reflexivity|]. split; [reflexivity|].
  apply (probabilities_are_classifier_row wide_env empty_world
           (serve_predict wide_env empty_world).2).
  - vm_compute. reflexivity.
  - reflexivity.
Defined.

(** C3 as stated fails: when deleting the webm file raises
    [PermissionError], the error is swallowed and the file is still on disk
    after the request. *)
Lemma locked_temp_file_stays :
  ∃ resp w',
    accepted_upload locked_env (upload "clip.webm")
    ∧ serve_predict locked_env empty_world = (Ret resp, w')
    ∧ webm_path locked_env ∈ disk w'
    ∧ ¬ temp_files_gone locked_env w'.
Proof.
  exists (MkResponse (prediction_body "dog_bark" six) 200),
         (serve_predict locked_env empty_world).2.
  assert (Hin : webm_path locked_env ∈ disk (serve_predict locked_env empty_world).2).
  { apply (bool_decide_unpack _). vm_compute. exact I. }
  split_and!; [split_and!; [reflexivity | reflexivity | discriminate] | vm_compute; reflexivity | exact Hin |].
  intros [Hgone _]. exact (Hgone Hin).
Qed.

(** C3, as amended, on a request whose deletions succeed. *)
Lemma temp_files_removed_unless_deletion_fails_example :
  accepted_upload good_env (upload "clip.webm")
  ∧ ∃ resp w',
      serve_predict good_env empty_world = (Ret resp, w')
      ∧ (os_remove_error good_env (webm_path good_env) = None →
         webm_path good_env ∉ disk w')
      ∧ (os_remove_error good_env (wav_path good_env) = None →
         wav_path good_env ∉ disk w').
Proof.
  assert (Hf : accepted_upload good_env (upload "clip.webm")).
  { split_and!; [reflexivity | reflexivity | discriminate]. }
  split; [exact Hf|].
  exact (temp_files_removed_unless_deletion_fails good_env empty_world (upload "clip.webm") Hf).
Defined.

(** C5 on a request whose embedding model yields an array of shape
    (0, 128): neither loading nor inference raises, and the extractor returns
    the zero vector, not [None]. *)
Lemma extractor_none_iff_loading_or_inference_raises_example :
  (∀ audio emb, librosa_load silent_env (wav_path silent_env) = inr audio →
                GLOBAL_VGGISH_MODEL silent_env audio = inr emb →
                expected_layout emb = true)
  ∧ zero_frames (NdArray (F := num) [0; 128] []) = true
  ∧ ∃ o s',
      load_and_extract_feature silent_env (wav_path silent_env)
        (empty_world, MkLocals None None) = (Ret o, s')
      ∧ (o = None ↔ load_or_inference_raises silent_env (wav_path silent_env))
      ∧ o = Some (np_zeros EMBEDDING_SIZE)
      ∧ o ≠ None.
Proof.
  assert (Hlayout : ∀ audio emb,
            librosa_load silent_env (wav_path silent_env) = inr audio →
            GLOBAL_VGGISH_MODEL silent_env audio = inr emb →
            expected_layout emb = true).
  { intros audio emb _ [= <-]. reflexivity. }
  split_and!; [exact Hlayout | reflexivity |].
  destruct (extractor_none_iff_loading_or_inference_raises silent_env
              (wav_path silent_env) (empty_world, MkLocals None None))
    as (o & s' & Hrun & _ & _ & Hiff & Hzero).
  exists o, s'.
  destruct (Hzero [] (NdArray [0; 128] []) eq_refl eq_refl eq_refl) as [Hsome Hnot].
  split_and!; [exact Hrun | exact (Hiff Hlayout) | exact Hsome | exact Hnot].
Defined.

(** C6 on a request whose embedding model yields an array of shape
    (0, 128). *)
Lemma zero_frames_yield_zero_vector_example :
  librosa_load silent_env (wav_path silent_env) = inr []
  ∧ GLOBAL_VGGISH_MODEL silent_env [] = inr (NdArray [0; 128] [])
  ∧ zero_frames (NdArray (F := num) [0; 128] []) = true
  ∧ returns (L := predict_locals) (load_and_extract_feature silent_env (wav_path silent_env))
            (Some (np_zeros EMBEDDING_SIZE))
  ∧ ∃ i name w',
      serve_predict silent_env empty_world
      = (Ret (MkResponse (prediction_body name six) 200), w')
      ∧ argmax six = Some i ∧ CLASS_NAMES !! i = Some name
      ∧ probabilities_of (prediction_body name six) = Some (JNumber <$> six)
      ∧ dom (label_probs six) = list_to_set CLASS_NAMES.
Proof.
  assert (Hreach : reaches_extraction silent_env).
  { exists (upload "clip.webm").
    split_and!; [split_and!; [reflexivity | reflexivity | discriminate] | reflexivity | reflexivity]. }
  destruct (zero_frames_yield_zero_vector silent_env (wav_path silent_env) []
              (NdArray [0; 128] []) eq_refl eq_refl eq_refl)
    as (Hzeros & _ & _ & Hresponse).
  split_and!; [reflexivity | reflexivity | reflexivity | exact Hzeros |].
  apply (Hresponse eq_refl Hreach six [] empty_world); reflexivity.
Defined.

(** C7 as stated fails: a request without the field [audio_file] whose
    form does not parse is answered by the generic [except] clause with
    status 500, not 400. *)
Lemma unparsed_form_is_500 :
  files_get "audio_file" (request_files Faults.oversized_env) = None
  ∧ ∃ w',
      serve_predict Faults.oversized_env empty_world
      = (Ret (MkResponse (internal_error_body (exn_str Faults.too_large)) 500), w')
      ∧ resp_status (MkResponse (F := num)
                       (internal_error_body (exn_str Faults.too_large)) 500) ≠ 400.
Proof.
  split; [reflexivity|].
  exists (serve_predict Faults.oversized_env empty_world).2.
  split; [vm_compute; reflexivity | discriminate].
Qed.

(** C7, as amended, on a request without the field [audio_file] whose form
    parses. *)
Lemma rejected_upload_is_400_without_effects_example :
  request_parse_error no_field_env = None
  ∧ files_get "audio_file" (request_files no_field_env) = None
  ∧ ∃ msg,
      serve_predict no_field_env empty_world
      = (Ret (MkResponse (JObject {["error" := JString msg]}) 400), empty_world).
Proof.
  split_and!; [reflexivity | reflexivity |].
  apply (rejected_upload_is_400_without_effects no_field_env empty_world eq_refl).
  left. reflexivity.
Defined.

(** C8 on a request whose transcoder exits with code 1. *)
Lemma failed_transcoding_is_500_example :
  accepted_upload failing_ffmpeg_env (upload "clip.webm")
  ∧ run_outcome (subprocess_run failing_ffmpeg_env (transcoder_cmd failing_ffmpeg_env))
    = inr (MkCompleted 1 "")
  ∧ ∃ w',
      serve_predict failing_ffmpeg_env empty_world
      = (Ret (MkResponse
                (JObject {["error" := JString "Failed to convert audio with ffmpeg. Ensure ffmpeg is installed and accessible from PATH."]})
                500), w').
Proof.
  assert (Hf : accepted_upload failing_ffmpeg_env (upload "clip.webm")).
  { split_and!; [reflexivity | reflexivity | discriminate]. }
  split_and!; [exact Hf | reflexivity |].
  apply (failed_transcoding_is_500 failing_ffmpeg_env empty_world (upload "clip.webm")
           (MkCompleted 1 "") Hf); [reflexivity | reflexivity | discriminate].
Defined.

(** C9 on a request whose classifier answers with three probabilities. *)
Lemma unlabelable_row_is_internal_error_example :
  reaches_extraction short_env
  ∧ classifier_model short_env
      (np_expand_dims0 one_frame_mean)
    = inr [three]
  ∧ (length three < NUM_CLASSES)%nat
  ∧ ∃ details w',
      serve_predict short_env empty_world
      = (Ret (MkResponse
                (JObject (<["details" := JString details]>
                            {["error" := JString "Internal server error"]}))
                500), w').
Proof.
  assert (Hreach : reaches_extraction short_env).
  { exists (upload "clip.webm").
    split_and!; [split_and!; [reflexivity | reflexivity | discriminate] | reflexivity | reflexivity]. }
  assert (Hshort : (length three < NUM_CLASSES)%nat) by (vm_compute; lia).
  split_and!; [exact Hreach | reflexivity | exact Hshort |].
  apply (unlabelable_row_is_internal_error short_env empty_world
           one_frame_mean three [] Hreach).
  - intros [w l]. vm_compute. reflexivity.
  - reflexivity.
  - left. exact Hshort.
Defined.

(** ** The effects of the helpers and of the handler *)

Section EffectFacts.
Context {F : Type} `{Floats F} (env : Env F).

Lemma effects_app (a b : list event) : effects (a ++ b) = (effects a ++ effects b)%list.
Proof. unfold effects. apply List.filter_app. Qed.

Lemma effects_print (tr : list event) (line : string) :
  effects (tr ++ [EvPrint line]) = effects tr.
Proof. rewrite effects_app. simpl. apply app_nil_r. Qed.

Lemma effects_traceback (tr : list event) (e : exn) :
  effects (tr ++ [EvTraceback e]) = effects tr.
Proof. rewrite effects_app. simpl. apply app_nil_r. Qed.

Lemma convert_webm_to_wav_effect {L : Type} (webm wav : string) (sr : Z) (s : World * L) :
  ∃ w', convert_webm_to_wav env webm wav sr s
        = (Ret (exited_zero (run_outcome (subprocess_run env (ffmpeg_cmd webm wav sr)))),
           (w', s.2))
        ∧ disk w' = list_to_set (run_writes (subprocess_run env (ffmpeg_cmd webm wav sr)))
                    ∪ disk s.1
        ∧ effects (trace w') = (effects (trace s.1) ++ [EvRun (ffmpeg_cmd webm wav sr)])%list.
Proof.
  unfold convert_webm_to_wav, try_except, bind, subprocess_run_call, print, ret, emit.
  simpl.
  destruct (run_outcome (subprocess_run env (ffmpeg_cmd webm wav sr))) as [e|result];
    simpl.
  - destruct (is_FileNotFoundError e); simpl; eexists; split_and!; try reflexivity;
      simpl; by rewrite !effects_print, effects_app, effects_print.
  - destruct (returncode result =? 0)%Z; simpl; eexists; split_and!; try reflexivity;
      simpl; by rewrite !effects_print, effects_app, effects_print.
Qed.

Lemma load_and_extract_feature_effect {L : Type} (path : string) (s : World * L) :
  ∃ w', load_and_extract_feature env path s = (Ret (pooled env path), (w', s.2))
        ∧ disk w' = disk s.1
        ∧ effects (trace w')
          = (effects (trace s.1)
             ++ EvLoad path
                :: match librosa_load env path with
                   | inl _ => []
                   | inr _ => [EvEmbed]
                   end)%list.
Proof.
  unfold load_and_extract_feature, pooled, try_except, bind, call, print, ret, emit.
  simpl.
  destruct (librosa_load env path) as [e|audio]; simpl.
  { eexists. split_and!; try reflexivity. simpl. by rewrite effects_print, effects_app. }
  destruct (GLOBAL_VGGISH_MODEL env audio) as [e|emb]; simpl.
  { eexists. split_and!; try reflexivity. simpl.
    by rewrite effects_print, !effects_app, <- app_assoc. }
  destruct emb as [sh dat]. unfold unpoolable, np_squeeze0, shape0, list_getitem. simpl.
  assert (Hev : ∀ tr, effects ((tr ++ [EvLoad path]) ++ [EvEmbed])
                      = (effects tr ++ [EvLoad path; EvEmbed])%list).
  { intros tr. by rewrite !effects_app, <- app_assoc. }
  destruct sh as [|a [|b [|c [|d sh]]]]; simpl.
  - eexists. split_and!; try reflexivity. simpl. by rewrite !effects_print, Hev.
  - destruct a; simpl; eexists; split_and!; try reflexivity; simpl;
      by rewrite ?effects_print, Hev.
  - destruct a; simpl; eexists; split_and!; try reflexivity; simpl;
      by rewrite ?effects_print, Hev.
  - destruct a as [|[|a]]; simpl.
    + eexists; split_and!; try reflexivity; simpl; by rewrite ?effects_print, Hev.
    + destruct b; simpl; eexists; split_and!; try reflexivity; simpl;
        by rewrite ?effects_print, Hev.
    + eexists; split_and!; try reflexivity; simpl; by rewrite ?effects_print, Hev.
  - destruct a; simpl; eexists; split_and!; try reflexivity; simpl;
      by rewrite ?effects_print, Hev.
Qed.
End EffectFacts.

Section PathFacts.
Lemma append_inj_r (a x y : string) : a ++ x = a ++ y → x = y.
Proof. induction a as [|c a IH]; simpl; [done|]. intros [= Heq]. by apply IH. Qed.

Lemma joined_paths_differ (a x y : string) :
  String.prefix "/" x = false → String.prefix "/" y = false → x ≠ y →
  os_path_join a x ≠ os_path_join a y.
Proof.
  intros Hx Hy Hne. unfold os_path_join. rewrite Hx, Hy.
  destruct (String.eqb a "" || endswith_sep a); intros Heq.
  - by apply append_inj_r in Heq.
  - apply append_inj_r in Heq. by apply (append_inj_r "/") in Heq.
Qed.
End PathFacts.

Section HandlerEffects.
Context {F : Type} `{Floats F} (env : Env F).

Lemma temp_paths_differ : webm_path env ≠ wav_path env.
Proof. by apply joined_paths_differ. Qed.

Lemma removed_other (D : gset string) (p q : string) (b : bool) (o : option os_error) :
  q ≠ p →
  q ∈ (if b then if o is None then D ∖ {[p]} else D else D) ↔ q ∈ D.
Proof.
  intros Hne. destruct b; [|done]. destruct o; [done|].
  rewrite elem_of_difference, elem_of_singleton. tauto.
Qed.

Lemma cleanup_one_effect (path : string) (s : World * predict_locals) :
  path ≠ "" →
  ∃ w', cleanup_one env (Some path) s = (Ret tt, (w', s.2))
        ∧ disk w' = (if bool_decide (path ∈ disk s.1)
                     then if os_remove_error env path is None
                          then disk s.1 ∖ {[path]} else disk s.1
                     else disk s.1)
        ∧ effects (trace w')
          = (effects (trace s.1)
             ++ if bool_decide (path ∈ disk s.1) then [EvRemove path] else [])%list.
Proof.
  intros Hne. destruct s as [w l]. unfold cleanup_one. simpl.
  destruct (String.eqb_spec path "") as [|_]; [done|]. simpl.
  unfold bind, os_path_exists, try_except, os_remove, ret, emit. simpl.
  destruct (bool_decide (path ∈ disk w)) eqn:Hin; simpl.
  - destruct (os_remove_error env path) as [err|]; simpl.
    + rewrite is_OSError_os_error. eexists. split_and!; try reflexivity.
      simpl. by rewrite effects_app.
    + rewrite Hin. eexists. split_and!; try reflexivity. simpl. by rewrite effects_app.
  - exists w. split_and!; try reflexivity. by rewrite app_nil_r.
Qed.

Local Abbreviation guarded := (try_except (predict_audio_try env) predict_audio_except).

Lemma guarded_effect (f : FileStorage) (w : World) (l : predict_locals) :
  accepted_upload env f →
  ∃ rv w1,
    guarded (w, l) = (Ret rv, (w1, MkLocals (Some (webm_path env)) (Some (wav_path env))))
    ∧ after_upload env f rv
    ∧ disk w1 = disk_after_try env f w
    ∧ effects (trace w1) = (effects (trace w) ++ take (stages_run env f) (pipeline env))%list.
Proof.
  intros (Hparse & Hget & Hname).
  unfold try_except, predict_audio_try, after_upload, disk_after_try, stages_run.
  unfold bind at 1. unfold request_dot_files. rewrite Hparse. simpl.
  rewrite (files_contains_some _ _ _ Hget). simpl.
  unfold bind at 1. simpl.
  unfold bind at 1. unfold files_getitem. rewrite Hget. simpl.
  destruct (String.eqb_spec (filename f) "") as [|_]; [done|].
  fold (webm_path env). fold (wav_path env).
  unfold bind at 1 2 3 4 5. simpl.
  unfold FileStorage_save, emit. simpl.
  destruct (on_save f) as [|created e]; simpl.
  2:{ unfold predict_audio_except, bind, traceback_print_exc, ret, emit. simpl.
      eexists _, _. split_and!; [reflexivity | done | by destruct created |].
      simpl. by rewrite effects_traceback, effects_app. }
  unfold bind at 1 2. unfold print at 1. unfold emit. simpl.
  match goal with
  | |- context [convert_webm_to_wav env ?a ?b ?c ?st] =>
      destruct (convert_webm_to_wav_effect env a b c st) as (w1 & -> & Hd1 & Ht1)
  end.
  fold (transcoder_cmd env) in *. simpl in Hd1, Ht1.
  rewrite effects_print, effects_app in Ht1. simpl in Ht1. rewrite <- app_assoc in Ht1.
  simpl in Ht1. simpl.
  destruct (exited_zero (run_outcome (subprocess_run env (transcoder_cmd env)))); simpl.
  2:{ eexists _, _. split_and!; [reflexivity | done | done | done]. }
  unfold bind at 1.
  match goal with
  | |- context [load_and_extract_feature env ?a ?st] =>
      destruct (load_and_extract_feature_effect env a st) as (w2 & -> & Hd2 & Ht2)
  end.
  simpl in Hd2, Ht2. rewrite Hd1 in Hd2. rewrite Ht1, <- app_assoc in Ht2. simpl in Ht2.
  simpl.
  destruct (pooled env (wav_path env)) as [features|] eqn:Hpool; simpl.
  2:{ eexists _, _. split_and!; [reflexivity | done | done |].
      rewrite Ht2. destruct (librosa_load env (wav_path env)) as [e|audio]; [done|].
      by destruct (GLOBAL_VGGISH_MODEL env audio). }
  assert (Hstages : match librosa_load env (wav_path env) with
                    | inl _ => 3
                    | inr audio => match GLOBAL_VGGISH_MODEL env audio with
                                   | inl _ => 4
                                   | inr _ => 5
                                   end
                    end = 5
                    ∧ match librosa_load env (wav_path env) with
                      | inl _ => []
                      | inr _ => [EvEmbed]
                      end = [EvEmbed]).
  { unfold pooled in Hpool. destruct (librosa_load env (wav_path env)); [done|].
    by destruct (GLOBAL_VGGISH_MODEL env _). }
  destruct Hstages as [-> Hembed]. rewrite Hembed in Ht2.
  match goal with
  | |- context [predict_audio_classify env ?a ?st] =>
      destruct (predict_audio_classify_cases env a st)
        as [(e & Hbad & ->)|(probs & rows & i & name & Ho & Hlen & Harg & Hname' & ->)]
  end.
  - unfold predict_audio_except, bind, traceback_print_exc, ret, emit. simpl.
    eexists _, _. split_and!; [reflexivity | left; eauto | done |].
    simpl. by rewrite effects_traceback, effects_app, Ht2, <- app_assoc.
  - eexists _, _. split_and!; [reflexivity | right; eauto 10 | done |].
    unfold emit. simpl. by rewrite effects_app, Ht2, <- app_assoc.
Qed.

(** A request whose upload is accepted, end to end: the response, the
    effects in their order, and the disk. *)
Lemma serve_predict_effect (f : FileStorage) (w : World) :
  accepted_upload env f →
  ∃ rv w' rem,
    serve_predict env w = (Ret (make_response rv), w')
    ∧ after_upload env f rv
    ∧ effects (trace w')
      = (effects (trace w) ++ take (stages_run env f) (pipeline env) ++ rem)%list
    ∧ rem `sublist_of` removals env
    ∧ (EvRemove (webm_path env) ∈ rem ↔ webm_path env ∈ disk_after_try env f w)
    ∧ (EvRemove (wav_path env) ∈ rem ↔ wav_path env ∈ disk_after_try env f w)
    ∧ (∀ q, q ≠ webm_path env → q ≠ wav_path env →
            (q ∈ disk w' ↔ q ∈ disk_after_try env f w)).
Proof.
  intros Hf.
  destruct (guarded_effect f w (MkLocals None None) Hf) as (rv & w1 & Hg & Hafter & Hd1 & Ht1).
  unfold serve_predict, predict_audio, try_finally. rewrite Hg.
  unfold predict_audio_finally, bind, get_locals.
  cbn [snd temp_webm_path temp_wav_path].
  destruct (cleanup_one_effect (webm_path env)
              (w1, MkLocals (Some (webm_path env)) (Some (wav_path env))))
    as (w2 & -> & Hd2 & Ht2); [by apply joined_path_nonempty|].
  cbn [snd fst temp_webm_path temp_wav_path].
  destruct (cleanup_one_effect (wav_path env)
              (w2, MkLocals (Some (webm_path env)) (Some (wav_path env))))
    as (w3 & -> & Hd3 & Ht3); [by apply joined_path_nonempty|].
  simpl in Hd2, Ht2, Hd3, Ht3.
  pose proof temp_paths_differ as Hdiff.
  assert (Hwav : wav_path env ∈ disk w2 ↔ wav_path env ∈ disk w1).
  { rewrite Hd2. apply removed_other. congruence. }
  exists rv, w3,
    ((if bool_decide (webm_path env ∈ disk w1) then [EvRemove (webm_path env)] else [])
     ++ (if bool_decide (wav_path env ∈ disk w2) then [EvRemove (wav_path env)] else []))%list.
  rewrite <- Hd1.
  split_and!; [done | done | by rewrite Ht3, Ht2, Ht1, <- !app_assoc | | | |].
  - unfold removals.
    destruct (bool_decide (webm_path env ∈ disk w1)),
             (bool_decide (wav_path env ∈ disk w2)); simpl.
    + done.
    + apply sublist_skip. constructor. apply sublist_nil_l.
    + apply sublist_cons. apply sublist_skip. constructor.
    + apply sublist_nil_l.
  - rewrite elem_of_app.
    destruct (bool_decide (webm_path env ∈ disk w1)) eqn:Hin1.
    + apply bool_decide_eq_true in Hin1. split; [done|]. intros _. left. by left.
    + apply bool_decide_eq_false in Hin1. split; [|done].
      intros [Hnil|Hin]; [by apply elem_of_nil in Hnil|].
      destruct (bool_decide (wav_path env ∈ disk w2)); [|by apply elem_of_nil in Hin].
      apply list_elem_of_singleton in Hin. congruence.
  - rewrite <- Hwav, elem_of_app.
    destruct (bool_decide (wav_path env ∈ disk w2)) eqn:Hin2.
    + apply bool_decide_eq_true in Hin2. split; [done|]. intros _. right. by left.
    + apply bool_decide_eq_false in Hin2. split; [|done].
      intros [Hin|Hnil]; [|by apply elem_of_nil in Hnil].
      destruct (bool_decide (webm_path env ∈ disk w1)); [|by apply elem_of_nil in Hin].
      apply list_elem_of_singleton in Hin. congruence.
  - intros q Hq1 Hq2. rewrite Hd3, removed_other by done. rewrite Hd2. by apply removed_other.
Qed.
End HandlerEffects.

Section MoreFacts.
Context {F : Type} `{Floats F} (env : Env F).

Lemma elem_of_effects (ev : event) (tr : list event) :
  ev ∈ effects tr ↔ ev ∈ tr ∧ is_log ev = false.
Proof.
  unfold effects. rewrite !list_elem_of_In, List.filter_In, negb_true_iff. done.
Qed.

Lemma elem_of_effects_stage (ev : event) (tr : list event) :
  is_log ev = false → (ev ∈ tr ↔ ev ∈ effects tr).
Proof. intros Hlog. rewrite elem_of_effects. tauto. Qed.

Lemma pooled_of_returns (path : string) (o : option (ndarray F)) :
  returns (L := predict_locals) (load_and_extract_feature env path) o → pooled env path = o.
Proof.
  intros Hret. specialize (Hret (MkWorld ∅ [], MkLocals None None)).
  destruct (load_and_extract_feature_runs env path (MkWorld ∅ [], MkLocals None None))
    as (w1 & Hrun).
  rewrite Hrun in Hret. simpl in Hret. congruence.
Qed.

Lemma accepted_upload_unique (f f' : FileStorage) :
  accepted_upload env f → accepted_upload env f' → f' = f.
Proof. intros (_ & Hf & _) (_ & Hf' & _). congruence. Qed.

Lemma removals_are_removes (rem : list event) (ev : event) :
  rem `sublist_of` removals env → ev ∈ rem →
  ev = EvRemove (webm_path env) ∨ ev = EvRemove (wav_path env).
Proof.
  intros Hsub Hin. pose proof (elem_of_sublist _ _ _ Hin Hsub) as Hin'.
  unfold removals in Hin'. rewrite !elem_of_cons in Hin'.
  destruct Hin' as [?|[?|Hnil]]; [by left | by right | by apply elem_of_nil in Hnil].
Qed.
End MoreFacts.

Section ClassifyReached.
Context {F : Type} `{Floats F} (env : Env F).

Local Abbreviation guarded := (try_except (predict_audio_try env) predict_audio_except).

(** Once extraction gave [features], the guarded block ends as the
    classification steps do under the [except] clause. *)
Lemma guarded_reaches_classify (features : ndarray F) (w : World) (l : predict_locals) :
  reaches_extraction env →
  pooled env (wav_path env) = Some features →
  ∃ w2, guarded (w, l)
        = try_except (predict_audio_classify env features) predict_audio_except
            (w2, MkLocals (Some (webm_path env)) (Some (wav_path env))).
Proof.
  intros (f & (Hparse & Hget & Hname) & Hsaved & Hexit) Hpool.
  unfold try_except at 1. unfold predict_audio_try.
  unfold bind at 1. unfold request_dot_files. rewrite Hparse. simpl.
  rewrite (files_contains_some _ _ _ Hget). simpl.
  unfold bind at 1. simpl.
  unfold bind at 1. unfold files_getitem. rewrite Hget. simpl.
  destruct (String.eqb_spec (filename f) "") as [|_]; [done|].
  fold (webm_path env). fold (wav_path env).
  unfold bind at 1 2 3 4 5. simpl.
  unfold FileStorage_save, emit. rewrite Hsaved. simpl.
  unfold bind at 1 2. unfold print at 1. unfold emit. simpl.
  match goal with
  | |- context [convert_webm_to_wav env ?a ?b ?c ?st] =>
      destruct (convert_webm_to_wav_runs env a b c st) as (w1 & -> & _)
  end.
  fold (transcoder_cmd env). rewrite Hexit. simpl.
  unfold bind at 1.
  match goal with
  | |- context [load_and_extract_feature env ?a ?st] =>
      destruct (load_and_extract_feature_runs env a st) as (w2 & ->)
  end.
  simpl. rewrite Hpool. exists w2. reflexivity.
Qed.
End ClassifyReached.

(** ** The order of the probabilities *)

Section ArgmaxFacts.
Context {F : Type} `{Floats F}.
Hypothesis fle_total :
  ∀ x y : F, fisnan x = false → fisnan y = false → fle x y = true ∨ fle y x = true.
Hypothesis fle_trans :
  ∀ x y z : F, fle x y = true → fle y z = true → fle x z = true.

Lemma argmax_scan_first_maximum (ip : list F) : ∀ (pre : list F) (mp : F) (max_ind : nat),
  Forall (fun x => fisnan x = false) ip →
  fisnan mp = false →
  pre !! max_ind = Some mp →
  (∀ x, x ∈ pre → fle x mp = true) →
  (∀ j x, (j < max_ind)%nat → pre !! j = Some x → fle mp x = false) →
  ∃ m, (pre ++ ip)%list !! argmax_scan mp max_ind (length pre) ip = Some m
       ∧ (∀ x, x ∈ (pre ++ ip)%list → fle x m = true)
       ∧ (∀ j x, (j < argmax_scan mp max_ind (length pre) ip)%nat →
                 (pre ++ ip)%list !! j = Some x → fle m x = false).
Proof.
  induction ip as [|x rest IH]; intros pre mp max_ind Hnan Hmp Hat Hle Hfirst; simpl.
  - rewrite app_nil_r. eauto.
  - apply Forall_cons in Hnan as [Hx Hrest].
    assert (Hlen : S (length pre) = length (pre ++ [x])%list)
      by (rewrite length_app; simpl; lia).
    rewrite Hx, Hlen, (cons_middle x pre rest), app_assoc.
    destruct (fle x mp) eqn:Hxmp; simpl.
    + apply IH; [done | done | | |].
      * rewrite lookup_app_l; [done|]. by apply lookup_lt_Some in Hat.
      * intros y Hy. apply elem_of_app in Hy as [Hy|Hy]; [by apply Hle|].
        apply list_elem_of_singleton in Hy. by subst y.
      * intros j y Hj Hy. apply (Hfirst j y Hj).
        rewrite lookup_app_l in Hy; [done|]. apply lookup_lt_Some in Hat. lia.
    + assert (Hmpx : fle mp x = true).
      { destruct (fle_total x mp Hx Hmp) as [Hc|Hc]; [congruence | done]. }
      apply IH; [done | done | | |].
      * rewrite lookup_app_r by lia. by rewrite Nat.sub_diag.
      * intros y Hy. apply elem_of_app in Hy as [Hy|Hy].
        -- eapply fle_trans; [by apply Hle | done].
        -- apply list_elem_of_singleton in Hy. subst y.
           by destruct (fle_total x x Hx Hx).
      * intros j y Hj Hy. rewrite lookup_app_l in Hy by done.
        destruct (fle x y) eqn:Hxy; [|done].
        assert (Hymp : fle y mp = true) by (apply Hle; by eapply list_elem_of_lookup_2).
        pose proof (fle_trans _ _ _ Hxy Hymp). congruence.
Qed.

(** [np.argmax] of an array without NaN is the first index of a greatest
    entry. *)
Lemma argmax_first_maximum (a : list F) (i : nat) :
  Forall (fun x => fisnan x = false) a →
  argmax a = Some i →
  ∃ m, a !! i = Some m
       ∧ (∀ j x, a !! j = Some x → fle x m = true)
       ∧ (∀ j x, (j < i)%nat → a !! j = Some x → fle m x = false).
Proof.
  destruct a as [|x rest]; [discriminate|]. intros Hnan [= <-].
  apply Forall_cons in Hnan as [Hx Hrest]. rewrite Hx.
  destruct (argmax_scan_first_maximum rest [x] x 0 Hrest Hx eq_refl)
    as (m & Hm & Hmax & Hfirst).
  - intros y Hy. apply list_elem_of_singleton in Hy. subst y.
    by destruct (fle_total x x Hx Hx).
  - intros j y Hj. lia.
  - exists m. split_and!; [exact Hm | | exact Hfirst].
    intros j y Hy. apply Hmax. by eapply list_elem_of_lookup_2.
Qed.
End ArgmaxFacts.

(** ** Further properties of the code *)

Section Extras.
Context {F : Type} `{Floats F}.

(** X1: one call of [convert_webm_to_wav] starts the transcoder exactly
    once, with the argument vector for mono output at the given rate;
    afterwards the disk holds what it held before plus what the process
    wrote, and the caller's local variables are untouched. *)
Theorem transcoder_is_invoked_once {L : Type} (env : Env F)
    (webm wav : string) (sr : Z) (s : World * L) :
  let cmd := ["ffmpeg"; "-y"; "-i"; webm; "-ac"; "1"; "-ar"; str_int sr; wav] in
  ∃ b w',
    convert_webm_to_wav env webm wav sr s = (Ret b, (w', s.2))
    ∧ effects (trace w') = (effects (trace s.1) ++ [EvRun cmd])%list
    ∧ disk w' = list_to_set (run_writes (subprocess_run env cmd)) ∪ disk s.1.
Proof.
  intros cmd.
  destruct (convert_webm_to_wav_effect env webm wav sr s) as (w' & Hrun & Hdisk & Htrace).
  eexists _, w'. split_and!; [exact Hrun | exact Htrace | exact Hdisk].
Qed.

(** X2: every failure of the transcoder leaves its diagnostic in the log:
    the process's stderr text after a non-zero exit, the hint that ffmpeg was
    not found after [FileNotFoundError], and the exception's message after
    any other exception. *)
Theorem transcoder_failure_is_logged {L : Type} (env : Env F)
    (webm wav : string) (sr : Z) (s : World * L) :
  ∃ b w',
    convert_webm_to_wav env webm wav sr s = (Ret b, (w', s.2))
    ∧ (∀ result, run_outcome (subprocess_run env (ffmpeg_cmd webm wav sr)) = inr result →
                 returncode result ≠ 0%Z →
                 EvPrint "[ERROR] ffmpeg failed:" ∈ trace w'
                 ∧ EvPrint (stderr result) ∈ trace w')
    ∧ (∀ e, run_outcome (subprocess_run env (ffmpeg_cmd webm wav sr)) = inl e →
            is_FileNotFoundError e = true →
            EvPrint "[ERROR] ffmpeg not found. Make sure it is installed and in your PATH."
              ∈ trace w')
    ∧ (∀ e, run_outcome (subprocess_run env (ffmpeg_cmd webm wav sr)) = inl e →
            is_FileNotFoundError e = false →
            EvPrint ("[ERROR] Exception during ffmpeg conversion: " ++ exn_str e) ∈ trace w').
Proof.
  unfold convert_webm_to_wav, try_except, bind, subprocess_run_call, print, ret, emit.
  simpl.
  destruct (run_outcome (subprocess_run env (ffmpeg_cmd webm wav sr))) as [e|result];
    simpl.
  - destruct (is_FileNotFoundError e) eqn:Hfnf; simpl; eexists _, _.
    + split_and!; [reflexivity | intros ? [=] | | intros e' [= <-]; congruence].
      intros e' [= <-] _. simpl. rewrite !elem_of_app, !list_elem_of_singleton. auto.
    + split_and!; [reflexivity | intros ? [=] | intros e' [= <-]; congruence |].
      intros e' [= <-] _. simpl. rewrite !elem_of_app, !list_elem_of_singleton. auto.
  - destruct (returncode result =? 0)%Z eqn:Hcode; simpl; eexists _, _.
    + split_and!; [reflexivity | | intros ? [=] | intros ? [=]].
      intros result' [= <-] Hne. by apply Z.eqb_eq in Hcode.
    + split_and!; [reflexivity | | intros ? [=] | intros ? [=]].
      intros result' [= <-] _. simpl. rewrite !elem_of_app, !list_elem_of_singleton. auto.
Qed.

(** X3: [load_and_extract_feature] loads the file once and calls the
    embedding model once, after the load and only if the load succeeded; it
    changes nothing on disk and none of the caller's local variables. *)
Theorem extractor_only_loads_and_embeds {L : Type} (env : Env F)
    (path : string) (s : World * L) :
  ∃ o w',
    load_and_extract_feature env path s = (Ret o, (w', s.2))
    ∧ disk w' = disk s.1
    ∧ effects (trace w')
      = (effects (trace s.1)
         ++ match librosa_load env path with
            | inl _ => [EvLoad path]
            | inr _ => [EvLoad path; EvEmbed]
            end)%list.
Proof.
  destruct (load_and_extract_feature_effect env path s) as (w' & Hrun & Hdisk & Htrace).
  eexists _, w'. split_and!; [exact Hrun | exact Hdisk |].
  rewrite Htrace. by destruct (librosa_load env path).
Qed.

(** X4: when the embedding model yields [T > 0] frames of width [d], as an
    array of shape (T, d) or (1, T, d), the extractor returns the vector of
    the [d] column means: entry [j] is the mean of the entries [t * d + j]
    over the frames [t].  The extra batch dimension makes no difference. *)
Theorem extractor_mean_pools_frames (env : Env F) (path : string)
    (audio : list F) (emb : ndarray F) (T d : nat) :
  librosa_load env path = inr audio →
  GLOBAL_VGGISH_MODEL env audio = inr emb →
  shape emb = [T; d] ∨ shape emb = [1; T; d] →
  (0 < T)%nat →
  returns (L := predict_locals) (load_and_extract_feature env path)
    (Some (NdArray [d]
       (map (fun j => fmean (map (fun t => nth (t * d + j) (data emb) fzero) (seq 0 T)))
            (seq 0 d)))).
Proof.
  intros Hload Hemb Hshape HT.
  replace (Some _) with (pooled env path); [apply load_and_extract_feature_returns|].
  unfold pooled. rewrite Hload, Hemb. destruct emb as [sh dat]. simpl in *.
  unfold unpoolable, np_mean0. simpl.
  destruct T as [|T]; [lia|].
  destruct Hshape as [->| ->]; simpl; by rewrite Nat.mul_1_r.
Qed.

(** X5: when the upload is saved, the transcoder exits with code zero and
    the extractor returns [None], the response is a 500 whose [error] says
    that feature extraction failed, and the classifier is not called. *)
Theorem extraction_failure_is_500 (env : Env F) (w : World) :
  reaches_extraction env →
  returns (L := predict_locals) (load_and_extract_feature env (wav_path env)) None →
  ∃ w',
    serve_predict env w
    = (Ret (MkResponse
              (JObject {["error" := JString "Feature extraction failed even after ffmpeg conversion."]})
              500), w')
    ∧ (EvPredict ∉ trace w → EvPredict ∉ trace w').
Proof.
  intros (f & Hf & Hsaved & Hexit) Hnone. apply pooled_of_returns in Hnone.
  destruct (serve_predict_effect env f w Hf)
    as (rv & w' & rem & Hserve & Hafter & Htrace & Hrem & _).
  unfold after_upload in Hafter. rewrite Hsaved, Hexit, Hnone in Hafter. subst rv.
  exists w'. split; [exact Hserve|].
  rewrite (elem_of_effects_stage EvPredict (trace w)),
    (elem_of_effects_stage EvPredict (trace w')) by done.
  rewrite Htrace.
  intros Hold. rewrite !elem_of_app. intros [?|[Hin|Hin]]; [done | |].
  - unfold stages_run in Hin. rewrite Hsaved, Hexit, Hnone in Hin.
    destruct (librosa_load env (wav_path env)) as [?|audio];
      [|destruct (GLOBAL_VGGISH_MODEL env audio)];
      simpl in Hin;
      repeat (apply elem_of_cons in Hin as [Heq|Hin]; [discriminate Heq|]);
      by apply elem_of_nil in Hin.
  - by destruct (removals_are_removes env rem _ Hrem Hin).
Qed.

(** X6: when [subprocess.run] itself raises, because ffmpeg is missing or
    for any other reason, the response is the same 500 as after a non-zero
    exit, and neither the audio loader nor a model is called. *)
Theorem failed_invocation_is_500 (env : Env F) (w : World) (f : FileStorage) (e : exn) :
  accepted_upload env f →
  on_save f = Saved →
  run_outcome (subprocess_run env (transcoder_cmd env)) = inl e →
  ∃ w',
    serve_predict env w
    = (Ret (MkResponse
              (JObject {["error" := JString "Failed to convert audio with ffmpeg. Ensure ffmpeg is installed and accessible from PATH."]})
              500), w')
    ∧ (∀ ev, ev = EvLoad (wav_path env) ∨ ev = EvEmbed ∨ ev = EvPredict →
             ev ∉ trace w → ev ∉ trace w').
Proof.
  intros Hf Hsaved Hrun.
  destruct (serve_predict_effect env f w Hf)
    as (rv & w' & rem & Hserve & Hafter & Htrace & Hrem & _).
  unfold after_upload in Hafter. rewrite Hsaved, Hrun in Hafter. simpl in Hafter. subst rv.
  exists w'. split; [exact Hserve|].
  intros ev Hev.
  assert (Hlog : is_log ev = false) by (by destruct Hev as [->|[->| ->]]).
  rewrite (elem_of_effects_stage ev (trace w)), (elem_of_effects_stage ev (trace w')) by done.
  rewrite Htrace.
  intros Hold. rewrite !elem_of_app. intros [?|[Hin|Hin]]; [done | |].
  - unfold stages_run in Hin. rewrite Hsaved, Hrun in Hin. simpl in Hin.
    rewrite !elem_of_cons in Hin.
    destruct Hin as [->|[->|Hnil]]; [| |by apply elem_of_nil in Hnil];
      by destruct Hev as [?|[?|?]].
  - destruct (removals_are_removes env rem _ Hrem Hin) as [-> | ->];
      by destruct Hev as [?|[?|?]].
Qed.

(** X7: when saving the upload raises, the response is the generic 500
    whose [details] is the text of that exception, and neither the
    transcoder, the audio loader nor a model is called. *)
Theorem failed_save_is_internal_error (env : Env F) (w : World) (f : FileStorage)
    (created : bool) (e : exn) :
  accepted_upload env f →
  on_save f = SaveFailed created e →
  ∃ w',
    serve_predict env w
    = (Ret (MkResponse
              (JObject (<["details" := JString (exn_str e)]>
                          {["error" := JString "Internal server error"]}))
              500), w')
    ∧ (∀ ev, ev = EvRun (transcoder_cmd env) ∨ ev = EvLoad (wav_path env)
             ∨ ev = EvEmbed ∨ ev = EvPredict →
             ev ∉ trace w → ev ∉ trace w').
Proof.
  intros Hf Hsave.
  destruct (serve_predict_effect env f w Hf)
    as (rv & w' & rem & Hserve & Hafter & Htrace & Hrem & _).
  unfold after_upload in Hafter. rewrite Hsave in Hafter. subst rv.
  exists w'. split; [exact Hserve|].
  intros ev Hev.
  assert (Hlog : is_log ev = false) by (by destruct Hev as [->|[->|[->| ->]]]).
  rewrite (elem_of_effects_stage ev (trace w)), (elem_of_effects_stage ev (trace w')) by done.
  rewrite Htrace.
  intros Hold. rewrite !elem_of_app. intros [?|[Hin|Hin]]; [done | |].
  - unfold stages_run in Hin. rewrite Hsave in Hin. simpl in Hin.
    apply list_elem_of_singleton in Hin. subst ev.
    by destruct Hev as [?|[?|[?|?]]].
  - destruct (removals_are_removes env rem _ Hrem Hin) as [-> | ->];
      by destruct Hev as [?|[?|[?|?]]].
Qed.

(** X8: when the classifier's [predict] raises, the response is the
    generic 500 whose [details] is the text of that exception. *)
Theorem classifier_exception_is_internal_error (env : Env F) (w : World)
    (features : ndarray F) (e : exn) :
  reaches_extraction env →
  returns (L := predict_locals) (load_and_extract_feature env (wav_path env))
          (Some features) →
  classifier_model env (np_expand_dims0 features) = inl e →
  ∃ w',
    serve_predict env w
    = (Ret (MkResponse
              (JObject (<["details" := JString (exn_str e)]>
                          {["error" := JString "Internal server error"]}))
              500), w').
Proof.
  intros Hreach Hfeatures Ho. apply pooled_of_returns in Hfeatures.
  destruct (guarded_reaches_classify env features w (MkLocals None None) Hreach Hfeatures)
    as (w2 & Hg).
  unfold try_except at 2 in Hg. unfold predict_audio_classify, bind at 1, call in Hg.
  rewrite Ho in Hg.
  cbn [fst snd] in Hg.
  unfold predict_audio_except, bind, traceback_print_exc, ret in Hg. simpl in Hg.
  destruct (serve_predict_runs env w _ _ Hg) as (w' & Hserve & _).
  exists w'. exact Hserve.
Qed.

(** X9: a request is answered with status 200 exactly when every stage
    succeeds: the upload is accepted and saved, the transcoder exits with
    code zero, the extractor returns a vector, and the classifier's first row
    has at least as many entries as there are labels, with its argmax among
    the labels. *)
Theorem status_200_iff_every_stage_succeeds (env : Env F) (w w' : World) (resp : Response F) :
  serve_predict env w = (Ret resp, w') →
  resp_status resp = 200
  ↔ reaches_extraction env
    ∧ ∃ features probs rows i,
        returns (L := predict_locals) (load_and_extract_feature env (wav_path env))
                (Some features)
        ∧ classifier_model env (np_expand_dims0 features) = inr (probs :: rows)
        ∧ (NUM_CLASSES ≤ length probs)%nat
        ∧ argmax probs = Some i ∧ (i < NUM_CLASSES)%nat.
Proof.
  intros Hserve.
  destruct (serve_predict_cases env w) as (rv & w1 & Hrun & Hcases).
  rewrite Hrun in Hserve. injection Hserve as <- <-.
  split.
  - intros Hstatus.
    destruct Hcases as [(msg & -> & _)|[(e & _ & -> & _)|(f & Hf & Hafter & _)]];
      [discriminate Hstatus..|].
    apply after_upload_status in Hafter
      as [[H500 _]|(features & probs & rows & i & name & Hsaved & Hexit & Hpool & Ho & Hlen
                    & Harg & Hname & ->)].
    { rewrite H500 in Hstatus. discriminate Hstatus. }
    split; [by exists f|].
    exists features, probs, rows, i. split_and!; [| done | done | done |].
    + rewrite <- Hpool. apply load_and_extract_feature_returns.
    + by apply lookup_lt_Some in Hname.
  - intros [(f & Hf & Hsaved & Hexit) (features & probs & rows & i & Hret & Ho & Hlen & Harg & Hi)].
    apply pooled_of_returns in Hret.
    destruct Hcases as [(msg & _ & _ & Hnone)|[(e0 & _ & _ & _ & Hnone)|(f' & Hf' & Hafter & _)]];
      [by destruct (Hnone f)..|].
    rewrite (accepted_upload_unique env f f' Hf Hf') in Hafter.
    unfold after_upload in Hafter. rewrite Hsaved, Hexit, Hret, Ho in Hafter.
    destruct Hafter as [(e & Hbad & _)|(? & ? & ? & ? & _ & _ & _ & _ & ->)]; [|done].
    exfalso. simpl in Hbad. destruct Hbad as [Hshort|(j & Harg' & Hj)]; [lia|].
    assert (j = i) as -> by congruence. lia.
Qed.

(** X11: a request whose upload is accepted deletes nothing but its own
    two temp files: every other path is on disk afterwards exactly when it
    was there before or the transcoder process wrote it. *)
Theorem only_temp_files_are_deleted (env : Env F) (w : World) (f : FileStorage) (q : string) :
  accepted_upload env f →
  q ≠ webm_path env → q ≠ wav_path env →
  ∃ resp w',
    serve_predict env w = (Ret resp, w')
    ∧ (q ∈ disk w'
       ↔ q ∈ disk w
         ∨ (on_save f = Saved
            ∧ q ∈ run_writes (subprocess_run env (transcoder_cmd env)))).
Proof.
  intros Hf Hq1 Hq2.
  destruct (serve_predict_effect env f w Hf)
    as (rv & w' & rem & Hserve & _ & _ & _ & _ & _ & Hdisk).
  exists (make_response rv), w'. split; [exact Hserve|].
  rewrite (Hdisk q Hq1 Hq2). unfold disk_after_try.
  destruct (on_save f) as [|created e].
  - rewrite !elem_of_union, elem_of_list_to_set, elem_of_singleton. intuition (eauto; try discriminate; try congruence).
  - destruct created; rewrite ?elem_of_union, ?elem_of_singleton; intuition (eauto; try discriminate; try congruence).
Qed.

(** X12: the stages of an accepted request run in the order save,
    transcode, load, embed, classify, each only if all the earlier ones ran,
    and the deletions of the temp files come after them, the webm file
    first. *)
Theorem stages_run_in_order (env : Env F) (w : World) (f : FileStorage) :
  accepted_upload env f →
  ∃ resp w' n rem,
    serve_predict env w = (Ret resp, w')
    ∧ (1 ≤ n ≤ 5)%nat
    ∧ effects (trace w')
      = (effects (trace w)
         ++ take n [EvSave (webm_path env); EvRun (transcoder_cmd env);
                    EvLoad (wav_path env); EvEmbed; EvPredict]
         ++ rem)%list
    ∧ rem `sublist_of` [EvRemove (webm_path env); EvRemove (wav_path env)].
Proof.
  intros Hf.
  destruct (serve_predict_effect env f w Hf)
    as (rv & w' & rem & Hserve & _ & Htrace & Hrem & _).
  exists (make_response rv), w', (stages_run env f), rem.
  split; [exact Hserve|]. split; [|split; [exact Htrace | exact Hrem]].
  unfold stages_run. destruct (on_save f); [|lia].
  destruct (exited_zero _); [|lia].
  destruct (librosa_load env (wav_path env)) as [?|audio]; [lia|].
  destruct (GLOBAL_VGGISH_MODEL env audio); [lia|].
  destruct (pooled env (wav_path env)); lia.
Qed.

(** X14: the cleanup calls [os.remove] on a temp file exactly when that
    file exists once the [try] block is left: the wav file when it was there
    before the request or the transcoder process wrote it, the webm file
    when it was there before or saving the upload created it. *)
Theorem cleanup_removes_what_exists (env : Env F) (w : World) (f : FileStorage) :
  accepted_upload env f →
  EvRemove (webm_path env) ∉ trace w →
  EvRemove (wav_path env) ∉ trace w →
  ∃ resp w',
    serve_predict env w = (Ret resp, w')
    ∧ (EvRemove (wav_path env) ∈ trace w'
       ↔ wav_path env ∈ disk w
         ∨ (on_save f = Saved
            ∧ wav_path env ∈ run_writes (subprocess_run env (transcoder_cmd env))))
    ∧ (EvRemove (webm_path env) ∈ trace w'
       ↔ webm_path env ∈ disk w ∨ on_save f = Saved
         ∨ ∃ e, on_save f = SaveFailed true e).
Proof.
  intros Hf Hold1 Hold2.
  destruct (serve_predict_effect env f w Hf)
    as (rv & w' & rem & Hserve & _ & Htrace & Hrem & Hwebm & Hwav & _).
  exists (make_response rv), w'. split; [exact Hserve|].
  pose proof (temp_paths_differ env) as Hdiff.
  assert (Hstage : ∀ p, EvRemove p ∉ take (stages_run env f) (pipeline env)).
  { intros p Hin. apply elem_of_take in Hin as (i & Hi & _).
    unfold pipeline in Hi.
    do 5 (destruct i as [|i]; [discriminate Hi|]). discriminate Hi. }
  rewrite (elem_of_effects_stage _ (trace w)) in Hold1 by done.
  rewrite (elem_of_effects_stage _ (trace w)) in Hold2 by done.
  rewrite !(elem_of_effects_stage _ (trace w')) by done.
  rewrite Htrace, !elem_of_app. split.
  - transitivity (EvRemove (wav_path env) ∈ rem).
    { split; [intros [?|[Hin|?]]; [done | by apply Hstage in Hin | done] | auto]. }
    rewrite Hwav. unfold disk_after_try.
    destruct (on_save f) as [|created e].
    + rewrite !elem_of_union, elem_of_list_to_set, elem_of_singleton. intuition (eauto; try discriminate; try congruence).
    + destruct created; rewrite ?elem_of_union, ?elem_of_singleton; intuition (eauto; try discriminate; try congruence).
  - transitivity (EvRemove (webm_path env) ∈ rem).
    { split; [intros [?|[Hin|?]]; [done | by apply Hstage in Hin | done] | auto]. }
    rewrite Hwebm. unfold disk_after_try.
    destruct (on_save f) as [|[|] e]; rewrite ?elem_of_union, ?elem_of_singleton.
    + split; [intros _; right; by left | intros _; right; by left].
    + split; [intros _; right; right; by exists e | intros _; by left].
    + split; [intros Hin; by left | intros [Hin|[Heq|[e0 Heq]]]; [done | done | done]].
Qed.

(** X10: when [<=] is a total preorder on the floats that are not NaN and
    the classifier's row holds no NaN, the [predicted_class] of a 200
    response is the label of a greatest entry of [probabilities], and of the
    first such entry when several are equal. *)
Theorem predicted_class_has_greatest_probability (env : Env F) (w w' : World)
    (resp : Response F) :
  (∀ x y : F, fisnan x = false → fisnan y = false → fle x y = true ∨ fle y x = true) →
  (∀ x y z : F, fle x y = true → fle y z = true → fle x z = true) →
  (∀ features probs rows, classifier_model env features = inr (probs :: rows) →
                          Forall (fun x => fisnan x = false) probs) →
  serve_predict env w = (Ret resp, w') →
  resp_status resp = 200 →
  ∃ m name probs i best,
    resp_body resp = JObject m
    ∧ m !! "predicted_class" = Some (JString name)
    ∧ m !! "probabilities" = Some (JArray (JNumber <$> probs))
    ∧ CLASS_NAMES !! i = Some name
    ∧ probs !! i = Some best
    ∧ (∀ j x, probs !! j = Some x → fle x best = true)
    ∧ (∀ j x, (j < i)%nat → probs !! j = Some x → fle best x = false).
Proof.
  intros Htotal Htrans Hnan Hserve Hstatus.
  destruct (serve_predict_cases env w) as (rv & w1 & Hrun & Hcases).
  rewrite Hrun in Hserve. injection Hserve as <- <-.
  destruct Hcases as [(msg & -> & _)|[(e & _ & -> & _)|(f & _ & Hafter & _)]];
    [discriminate Hstatus..|].
  apply after_upload_status in Hafter
    as [[H500 _]|(features & probs & rows & i & name & _ & _ & _ & Ho & Hlen & Harg & Hname & ->)].
  { rewrite H500 in Hstatus. discriminate Hstatus. }
  destruct (argmax_first_maximum Htotal Htrans probs i (Hnan _ _ _ Ho) Harg)
    as (best & Hbest & Hmax & Hfirst).
  simpl. rewrite prediction_body_keys.
  eexists _, name, probs, i, best.
  split_and!; [reflexivity | reflexivity | reflexivity | done | done | done | done].
Qed.
End Extras.

(** ** The further properties on sample requests *)

Import Faults.

Lemma num_le_total (x y : num) :
  fisnan x = false → fisnan y = false → fle x y = true ∨ fle y x = true.
Proof.
  destruct x as [a|], y as [b|]; simpl; try discriminate. intros _ _.
  rewrite !QArith_base.Qle_bool_iff.
  destruct (QArith_base.Qlt_le_dec a b) as [Hlt|Hle]; [left|right; done].
  by apply QArith_base.Qlt_le_weak.
Qed.

Lemma num_le_trans (x y z : num) :
  fle x y = true → fle y z = true → fle x z = true.
Proof.
  destruct x as [a|], y as [b|], z as [c|]; simpl; try discriminate.
  rewrite !QArith_base.Qle_bool_iff. apply QArith_base.Qle_trans.
Qed.

Lemma good_env_reaches_extraction : reaches_extraction good_env.
Proof.
  exists (upload "clip.webm").
  split_and!; [split_and!; [reflexivity | reflexivity | discriminate] | reflexivity | reflexivity].
Qed.

(** X4 on two frames (1, 2, 3) and (4, 5, 6), in the layout (2, 3) and in
    the layout (1, 2, 3): both times the extractor returns the column means
    (5/2, 7/2, 9/2). *)
Lemma extractor_mean_pools_frames_example :
  GLOBAL_VGGISH_MODEL Frames.flat_env []
  = inr (NdArray [2%nat; 3%nat] Frames.two_frames)
  ∧ GLOBAL_VGGISH_MODEL Frames.batch_env []
    = inr (NdArray [1%nat; 2%nat; 3%nat] Frames.two_frames)
  ∧ (0 < 2)%nat
  ∧ returns (L := predict_locals)
      (load_and_extract_feature Frames.flat_env (wav_path Frames.flat_env))
      (Some (NdArray [3%nat] Frames.frame_means))
  ∧ returns (L := predict_locals)
      (load_and_extract_feature Frames.batch_env (wav_path Frames.batch_env))
      (Some (NdArray [3%nat] Frames.frame_means)).
Proof.
  assert (Hframes : (0 < 2)%nat) by lia.
  split_and!; [reflexivity | reflexivity | exact Hframes | |].
  - exact (extractor_mean_pools_frames Frames.flat_env (wav_path Frames.flat_env) []
             (NdArray [2%nat; 3%nat] Frames.two_frames) 2 3
             eq_refl eq_refl (or_introl eq_refl) Hframes).
  - exact (extractor_mean_pools_frames Frames.batch_env (wav_path Frames.batch_env) []
             (NdArray [1%nat; 2%nat; 3%nat] Frames.two_frames) 2 3
             eq_refl eq_refl (or_intror eq_refl) Hframes).
Defined.

(** X5 on a request whose embedding model answers with a batch of two. *)
Lemma extraction_failure_is_500_example :
  reaches_extraction batched_env
  ∧ returns (L := predict_locals)
            (load_and_extract_feature batched_env (wav_path batched_env)) None
  ∧ ∃ w',
      serve_predict batched_env empty_world
      = (Ret (MkResponse
                (JObject {["error" := JString "Feature extraction failed even after ffmpeg conversion."]})
                500), w')
      ∧ (EvPredict ∉ trace empty_world → EvPredict ∉ trace w').
Proof.
  assert (Hreach : reaches_extraction batched_env).
  { exists (upload "clip.webm").
    split_and!; [split_and!; [reflexivity | reflexivity | discriminate] | reflexivity | reflexivity]. }
  assert (Hnone : returns (L := predict_locals)
                    (load_and_extract_feature batched_env (wav_path batched_env)) None).
  { intros [w l]. reflexivity. }
  split_and!; [exact Hreach | exact Hnone |].
  exact (extraction_failure_is_500 batched_env empty_world Hreach Hnone).
Defined.

(** X6 on a machine without ffmpeg. *)
Lemma failed_invocation_is_500_example :
  accepted_upload missing_ffmpeg_env (upload "clip.webm")
  ∧ run_outcome (subprocess_run missing_ffmpeg_env (transcoder_cmd missing_ffmpeg_env))
    = inl no_ffmpeg
  ∧ ∃ w',
      serve_predict missing_ffmpeg_env empty_world
      = (Ret (MkResponse
                (JObject {["error" := JString "Failed to convert audio with ffmpeg. Ensure ffmpeg is installed and accessible from PATH."]})
                500), w')
      ∧ (∀ ev, ev = EvLoad (wav_path missing_ffmpeg_env) ∨ ev = EvEmbed ∨ ev = EvPredict →
               ev ∉ trace empty_world → ev ∉ trace w').
Proof.
  assert (Hf : accepted_upload missing_ffmpeg_env (upload "clip.webm")).
  { split_and!; [reflexivity | reflexivity | discriminate]. }
  split_and!; [exact Hf | reflexivity |].
  exact (failed_invocation_is_500 missing_ffmpeg_env empty_world (upload "clip.webm")
           no_ffmpeg Hf eq_refl eq_refl).
Defined.

(** X7 on an upload that cannot be saved because the disk is full. *)
Lemma failed_save_is_internal_error_example :
  accepted_upload unsaved_env broken_upload
  ∧ on_save broken_upload = SaveFailed true disk_full
  ∧ ∃ w',
      serve_predict unsaved_env empty_world
      = (Ret (MkResponse
                (JObject (<["details" := JString (exn_str disk_full)]>
                            {["error" := JString "Internal server error"]}))
                500), w')
      ∧ (∀ ev, ev = EvRun (transcoder_cmd unsaved_env) ∨ ev = EvLoad (wav_path unsaved_env)
               ∨ ev = EvEmbed ∨ ev = EvPredict →
               ev ∉ trace empty_world → ev ∉ trace w').
Proof.
  assert (Hf : accepted_upload unsaved_env broken_upload).
  { split_and!; [reflexivity | reflexivity | discriminate]. }
  split_and!; [exact Hf | reflexivity |].
  exact (failed_save_is_internal_error unsaved_env empty_world broken_upload true disk_full
           Hf eq_refl).
Defined.

(** X8 on a classifier that rejects its input. *)
Lemma classifier_exception_is_internal_error_example :
  reaches_extraction crashing_env
  ∧ returns (L := predict_locals)
            (load_and_extract_feature crashing_env (wav_path crashing_env))
            (Some one_frame_mean)
  ∧ classifier_model crashing_env (np_expand_dims0 one_frame_mean) = inl bad_input
  ∧ ∃ w',
      serve_predict crashing_env empty_world
      = (Ret (MkResponse
                (JObject (<["details" := JString (exn_str bad_input)]>
                            {["error" := JString "Internal server error"]}))
                500), w').
Proof.
  assert (Hreach : reaches_extraction crashing_env).
  { exists (upload "clip.webm").
    split_and!; [split_and!; [reflexivity | reflexivity | discriminate] | reflexivity | reflexivity]. }
  assert (Hsome : returns (L := predict_locals)
                    (load_and_extract_feature crashing_env (wav_path crashing_env))
                    (Some one_frame_mean)).
  { intros [w l]. vm_compute. reflexivity. }
  split_and!; [exact Hreach | exact Hsome | reflexivity |].
  exact (classifier_exception_is_internal_error crashing_env empty_world one_frame_mean
           bad_input Hreach Hsome eq_refl).
Defined.

(** X9 on a request that succeeds. *)
Lemma status_200_iff_every_stage_succeeds_example :
  serve_predict good_env empty_world
  = (Ret (MkResponse (prediction_body "dog_bark" six) 200),
     (serve_predict good_env empty_world).2)
  ∧ (resp_status (MkResponse (prediction_body "dog_bark" six) 200) = 200
     ↔ reaches_extraction good_env
       ∧ ∃ features probs rows i,
           returns (L := predict_locals)
                   (load_and_extract_feature good_env (wav_path good_env)) (Some features)
           ∧ classifier_model good_env (np_expand_dims0 features) = inr (probs :: rows)
           ∧ (NUM_CLASSES ≤ length probs)%nat
           ∧ argmax probs = Some i ∧ (i < NUM_CLASSES)%nat).
Proof.
  assert (Hserve : serve_predict good_env empty_world
                   = (Ret (MkResponse (prediction_body "dog_bark" six) 200),
                      (serve_predict good_env empty_world).2)).
  { vm_compute. reflexivity. }
  split; [exact Hserve|].
  exact (status_200_iff_every_stage_succeeds good_env empty_world _ _ Hserve).
Defined.

(** X10 on the same request: dog_bark has the greatest of the six
    probabilities. *)
Lemma predicted_class_has_greatest_probability_example :
  serve_predict good_env empty_world
  = (Ret (MkResponse (prediction_body "dog_bark" six) 200),
     (serve_predict good_env empty_world).2)
  ∧ ∃ m name probs i best,
      resp_body (MkResponse (prediction_body "dog_bark" six) 200) = JObject m
      ∧ m !! "predicted_class" = Some (JString name)
      ∧ m !! "probabilities" = Some (JArray (JNumber <$> probs))
      ∧ CLASS_NAMES !! i = Some name
      ∧ probs !! i = Some best
      ∧ (∀ j x, probs !! j = Some x → fle x best = true)
      ∧ (∀ j x, (j < i)%nat → probs !! j = Some x → fle best x = false).
Proof.
  assert (Hserve : serve_predict good_env empty_world
                   = (Ret (MkResponse (prediction_body "dog_bark" six) 200),
                      (serve_predict good_env empty_world).2)).
  { vm_compute. reflexivity. }
  split; [exact Hserve|].
  apply (predicted_class_has_greatest_probability good_env empty_world
           (serve_predict good_env empty_world).2 _ num_le_total num_le_trans);
    [| exact Hserve | reflexivity].
  intros features probs rows [= <- _]. repeat constructor.
Defined.

(** X11 on a request served next to the classifier artifact: the artifact
    is still there afterwards. *)
Lemma only_temp_files_are_deleted_example :
  accepted_upload good_env (upload "clip.webm")
  ∧ model_file ≠ webm_path good_env
  ∧ model_file ≠ wav_path good_env
  ∧ ∃ resp w',
      serve_predict good_env installed_world = (Ret resp, w')
      ∧ (model_file ∈ disk w'
         ↔ model_file ∈ disk installed_world
           ∨ (on_save (upload "clip.webm") = Saved
              ∧ model_file ∈ run_writes (subprocess_run good_env (transcoder_cmd good_env)))).
Proof.
  assert (Hf : accepted_upload good_env (upload "clip.webm")).
  { split_and!; [reflexivity | reflexivity | discriminate]. }
  assert (Hq1 : model_file ≠ webm_path good_env) by discriminate.
  assert (Hq2 : model_file ≠ wav_path good_env) by discriminate.
  split_and!; [exact Hf | exact Hq1 | exact Hq2 |].
  exact (only_temp_files_are_deleted good_env installed_world (upload "clip.webm") model_file
           Hf Hq1 Hq2).
Defined.

(** X12 on a request that succeeds. *)
Lemma stages_run_in_order_example :
  accepted_upload good_env (upload "clip.webm")
  ∧ ∃ resp w' n rem,
      serve_predict good_env empty_world = (Ret resp, w')
      ∧ (1 ≤ n ≤ 5)%nat
      ∧ effects (trace w')
        = (effects (trace empty_world)
           ++ take n [EvSave (webm_path good_env); EvRun (transcoder_cmd good_env);
                      EvLoad (wav_path good_env); EvEmbed; EvPredict]
           ++ rem)%list
      ∧ rem `sublist_of` [EvRemove (webm_path good_env); EvRemove (wav_path good_env)].
Proof.
  assert (Hf : accepted_upload good_env (upload "clip.webm")).
  { split_and!; [reflexivity | reflexivity | discriminate]. }
  split; [exact Hf|].
  exact (stages_run_in_order good_env empty_world (upload "clip.webm") Hf).
Defined.

(** X14 on a request that succeeds. *)
Lemma cleanup_removes_what_exists_example :
  accepted_upload good_env (upload "clip.webm")
  ∧ (EvRemove (webm_path good_env) ∉ trace empty_world)
  ∧ (EvRemove (wav_path good_env) ∉ trace empty_world)
  ∧ ∃ resp w',
      serve_predict good_env empty_world = (Ret resp, w')
      ∧ (EvRemove (wav_path good_env) ∈ trace w'
         ↔ wav_path good_env ∈ disk empty_world
           ∨ (on_save (upload "clip.webm") = Saved
              ∧ wav_path good_env
                ∈ run_writes (subprocess_run good_env (transcoder_cmd good_env))))
      ∧ (EvRemove (webm_path good_env) ∈ trace w'
         ↔ webm_path good_env ∈ disk empty_world ∨ on_save (upload "clip.webm") = Saved
           ∨ ∃ e, on_save (upload "clip.webm") = SaveFailed true e).
Proof.
  assert (Hf : accepted_upload good_env (upload "clip.webm")).
  { split_and!; [reflexivity | reflexivity | discriminate]. }
  assert (Hno : ∀ ev : event, ev ∉ trace empty_world).
  { intros ev Hin. by apply elem_of_nil in Hin. }
  split_and!; [exact Hf | apply Hno | apply Hno |].
  exact (cleanup_removes_what_exists good_env empty_world (upload "clip.webm") Hf
           (Hno _) (Hno _)).
Defined.
